(** * TTerm kanban TODO list: the presentation layer of [tterminal/main.py]

    A shallow embedding of the Textual screens and of the application object
    of [src/tterminal/main.py], over a model of the task manager they call
    into.  Python objects that are shared by reference (the [Task] objects the
    manager, the widgets and the edit screen all point to) live in an explicit
    object store; every function threads the application state. *)

From Stdlib Require Import ZArith Ascii String List Bool Lia.
From stdpp Require Import base list strings.

Open Scope string_scope.

(** ** Python strings *)

(** [str.isspace] on one character.  A character of the model is a code point
    below 256; these are the code points of that range Python treats as
    whitespace. *)
Definition isspace (c : ascii) : bool :=
  let n := nat_of_ascii c in
  ((9 <=? n) && (n <=? 13) || (28 <=? n) && (n <=? 32)
   || (n =? 133) || (n =? 160))%nat.

Fixpoint lstrip (s : string) : string :=
  match s with
  | EmptyString => EmptyString
  | String c s' => if isspace c then lstrip s' else s
  end.

Fixpoint rstrip (s : string) : string :=
  match s with
  | EmptyString => EmptyString
  | String c s' =>
      match rstrip s' with
      | EmptyString => if isspace c then EmptyString else String c EmptyString
      | r => String c r
      end
  end.

(** [s.strip()] *)
Definition strip (s : string) : string := rstrip (lstrip s).

(** Truth value of a string in a condition: [if s:] holds for a non-empty
    string. *)
Definition truthy (s : string) : bool :=
  match s with
  | EmptyString => false
  | String _ _ => true
  end.

(** ** [datetime] *)

Record datetime : Type := mk_datetime {
  year : Z; month : Z; day : Z;
  hour : Z; minute : Z; second : Z; microsecond : Z
}.

Inductive exn : Type := ValueError.

Definition isdigit (c : ascii) : bool :=
  let n := nat_of_ascii c in ((48 <=? n) && (n <=? 57))%nat.

Definition digit (c : ascii) : Z := Z.of_nat (nat_of_ascii c) - 48.

Definition is_leap (y : Z) : bool :=
  (y mod 4 =? 0)%Z && (negb (y mod 100 =? 0)%Z || (y mod 400 =? 0)%Z).

Definition days_in_month (y m : Z) : Z :=
  if (m =? 2)%Z then (if is_leap y then 29 else 28)%Z
  else if ((m =? 4) || (m =? 6) || (m =? 9) || (m =? 11))%Z then 30%Z
  else 31%Z.

(** The [%m] directive: [1[0-2]|0[1-9]|[1-9]], followed by the literal [-] of
    the format.  Returns the month and the rest of the text. *)
Definition parse_month (l : list ascii) : option (Z * list ascii) :=
  let one :=
    match l with
    | m1 :: "-"%char :: rest =>
        if isdigit m1 && negb (digit m1 =? 0)%Z then Some (digit m1, rest)
        else None
    | _ => None
    end in
  match l with
  | m1 :: m2 :: "-"%char :: rest =>
      if isdigit m1 && isdigit m2 then
        let m := (10 * digit m1 + digit m2)%Z in
        if (1 <=? m)%Z && (m <=? 12)%Z then Some (m, rest) else one
      else one
  | _ => one
  end.

(** The [%d] directive at the end of the format:
    [3[0-1]|[1-2]\d|0[1-9]|[1-9]| [1-9]], after which no text may remain. *)
Definition parse_day (l : list ascii) : option Z :=
  match l with
  | [d1] =>
      if isdigit d1 && negb (digit d1 =? 0)%Z then Some (digit d1) else None
  | [d1; d2] =>
      if isdigit d1 && isdigit d2 then
        let d := (10 * digit d1 + digit d2)%Z in
        if (1 <=? d)%Z && (d <=? 31)%Z then Some d else None
      else if Ascii.eqb d1 " "%char && isdigit d2 && negb (digit d2 =? 0)%Z
      then Some (digit d2)
      else None
  | _ => None
  end.

(** [datetime.strptime(s, "%Y-%m-%d")]: four digits, a month, a day, nothing
    else; then the date has to exist (year at least 1, day within the month).
    Every failure is a [ValueError]. *)
Definition strptime (s : string) : exn + datetime :=
  match list_ascii_of_string s with
  | y1 :: y2 :: y3 :: y4 :: "-"%char :: rest =>
      if isdigit y1 && isdigit y2 && isdigit y3 && isdigit y4 then
        let y := (1000 * digit y1 + 100 * digit y2 + 10 * digit y3 + digit y4)%Z in
        match parse_month rest with
        | Some (m, rest') =>
            match parse_day rest' with
            | Some d =>
                if (1 <=? y)%Z && (d <=? days_in_month y m)%Z
                then inr (mk_datetime y m d 0 0 0 0)
                else inl ValueError
            | None => inl ValueError
            end
        | None => inl ValueError
        end
      else inl ValueError
  | _ => inl ValueError
  end.

Definition datetime_compare (a b : datetime) : comparison :=
  match (year a ?= year b)%Z with
  | Eq =>
    match (month a ?= month b)%Z with
    | Eq =>
      match (day a ?= day b)%Z with
      | Eq =>
        match (hour a ?= hour b)%Z with
        | Eq =>
          match (minute a ?= minute b)%Z with
          | Eq =>
            match (second a ?= second b)%Z with
            | Eq => (microsecond a ?= microsecond b)%Z
            | c => c
            end
          | c => c
          end
        | c => c
        end
      | c => c
      end
    | c => c
    end
  | c => c
  end.

Definition datetime_leb (a b : datetime) : bool :=
  match datetime_compare a b with
  | Gt => false
  | _ => true
  end.

(** The decimal digit [n], for [0 <= n <= 9], as a character. *)
Definition digit_char (n : Z) : ascii := ascii_of_nat (48 + Z.to_nat n).

Definition two_digits (n : Z) : string :=
  String (digit_char (n / 10)) (String (digit_char (n mod 10)) EmptyString).

(** [d.strftime("%Y-%m-%d")], month and day padded to two digits.  The year
    is written with four digits; below the year 1000 the padding of [%Y] is
    the platform's, and nothing is proved about such years. *)
Definition strftime (d : datetime) : string :=
  String (digit_char (year d / 1000))
    (String (digit_char (year d / 100 mod 10))
       (two_digits (year d mod 100) ++ "-" ++ two_digits (month d) ++ "-"
        ++ two_digits (day d))).

(** ** The task model ([tterminal/models.py]) *)

(** Modelled from the spec: the [Priority] enumeration of [models.py] (spec
    section 3), which is imported by [main.py] but is not among the sources. *)
Inductive Priority : Type :=
  | URGENT_IMPORTANT
  | NOT_URGENT_IMPORTANT
  | URGENT_NOT_IMPORTANT
  | NOT_URGENT_NOT_IMPORTANT.

(** Modelled from the spec: the numeric rank of a [Priority] (spec section 3,
    lower is more urgent). *)
Definition rank (p : Priority) : Z :=
  match p with
  | URGENT_IMPORTANT => 0
  | NOT_URGENT_IMPORTANT => 1
  | URGENT_NOT_IMPORTANT => 2
  | NOT_URGENT_NOT_IMPORTANT => 3
  end.

(** Modelled from the spec: the [Status] enumeration of [models.py] (spec
    section 3). *)
Inductive Status : Type := TODO | DOING | DONE.

(** Modelled from the spec: the string tag of a [Status] ([status.value]). *)
Definition value (s : Status) : string :=
  match s with
  | TODO => "todo"
  | DOING => "doing"
  | DONE => "done"
  end.

Definition Status_eqb (a b : Status) : bool :=
  match a, b with
  | TODO, TODO | DOING, DOING | DONE, DONE => true
  | _, _ => false
  end.

(** Modelled from the spec: the [Task] entity of [models.py] (spec section 3). *)
Record Task : Type := mk_Task {
  id : string;
  title : string;
  description : string;
  priority : Priority;
  status : Status;
  deadline : option datetime;
  created_at : datetime
}.

(** Modelled from the spec: the constructor call
    [Task(id=, title=, description=, priority=, deadline=)] of [main.py]
    leaves [status] and [created_at] to their defaults, which the spec gives
    as [todo] and the wall-clock time of the call ([now]). *)
Definition Task_init (now : datetime) (id title description : string)
    (priority : Priority) (deadline : option datetime) : Task :=
  mk_Task id title description priority TODO deadline now.

(** A reference to a [Task] object: its index in the object store. *)
Definition loc : Type := nat.

(** Modelled from the spec: the state of the [TaskManager] of [models.py]:
    the collection, in creation order, as references to the shared [Task]
    objects, and the snapshot last written to durable storage. *)
Record TaskManager : Type := mk_TaskManager {
  tasks : list loc;
  storage : list Task
}.

(** The keyword arguments of [update_task(task_id, **fields)]: any subset of
    the five mutable fields.  [kw_deadline] is [Some None] when the caller
    passes [deadline=None]. *)
Record Fields : Type := mk_Fields {
  kw_title : option string;
  kw_description : option string;
  kw_priority : option Priority;
  kw_status : option Status;
  kw_deadline : option (option datetime)
}.

Section Manager.

(** The object store the references of the manager point into. *)
Variable heap : list Task.

(** Modelled from the spec: [save()] serializes the entire current
    collection, overwriting the previous snapshot (spec section 4.2).  The
    write itself is taken to succeed. *)
Definition save (m : TaskManager) : TaskManager :=
  mk_TaskManager (tasks m) (omap (fun r => heap !! r) (tasks m)).

(** Modelled from the spec: [force_save()] is semantically identical to
    [save()]. *)
Definition force_save (m : TaskManager) : TaskManager := save m.

(** Modelled from the spec: [add_task(task)] appends the task to the
    collection and triggers persistence. *)
Definition add_task (task : loc) (m : TaskManager) : TaskManager :=
  save (mk_TaskManager (tasks m ++ [task]) (storage m)).

(** The first task of the collection, in creation order, whose id is
    [task_id]. *)
Fixpoint find_task (task_id : string) (l : list loc) : option (loc * Task) :=
  match l with
  | [] => None
  | r :: l' =>
      match heap !! r with
      | Some t => if String.eqb (id t) task_id then Some (r, t)
                  else find_task task_id l'
      | None => find_task task_id l'
      end
  end.

(** Modelled from the spec: [get_tasks_by_status(status)] returns, in
    creation order, every task whose status equals the argument. *)
Definition get_tasks_by_status (s : Status) (m : TaskManager) : list loc :=
  List.filter (fun r => match heap !! r with
                        | Some t => Status_eqb (status t) s
                        | None => false
                        end) (tasks m).

(** A stable sort of references by a preorder on the tasks they point to,
    as Python's [sorted] with a key. *)
Fixpoint insert_by (le : Task -> Task -> bool) (r : loc) (l : list loc) : list loc :=
  match l with
  | [] => [r]
  | r' :: l' =>
      match heap !! r, heap !! r' with
      | Some t, Some t' =>
          if le t t' then r :: l else r' :: insert_by le r l'
      | _, _ => r :: l
      end
  end.

Definition sort_by (le : Task -> Task -> bool) (l : list loc) : list loc :=
  foldr (insert_by le) [] l.

(** Modelled from the spec: ascending by priority rank, ties broken by
    [created_at] ascending. *)
Definition priority_le (a b : Task) : bool :=
  (rank (priority a) <? rank (priority b))%Z
  || ((rank (priority a) =? rank (priority b))%Z
      && datetime_leb (created_at a) (created_at b)).

Definition sort_tasks_by_priority (l : list loc) : list loc :=
  sort_by priority_le l.

(** Modelled from the spec: ascending by [created_at]. *)
Definition date_le (a b : Task) : bool :=
  datetime_leb (created_at a) (created_at b).

Definition sort_tasks_by_date (l : list loc) : list loc := sort_by date_le l.

(** Modelled from the spec: ascending by deadline, the tasks with no
    deadline after all the others and in their given order. *)
Definition deadline_le (a b : Task) : bool :=
  match deadline a, deadline b with
  | Some da, Some db => datetime_leb da db
  | Some _, None => true
  | None, Some _ => false
  | None, None => true
  end.

Definition sort_tasks_by_deadline (l : list loc) : list loc :=
  sort_by deadline_le l.

End Manager.

(** Modelled from the spec: what [update_task] does to the fields of the task
    it found: a supplied title that trims to empty is left out, every other
    supplied field overwrites unconditionally (spec section 4.2). *)
Definition apply_fields (kw : Fields) (t : Task) : Task :=
  mk_Task
    (id t)
    (match kw_title kw with
     | Some s => if truthy (strip s) then s else title t
     | None => title t
     end)
    (default (description t) (kw_description kw))
    (default (priority t) (kw_priority kw))
    (default (status t) (kw_status kw))
    (default (deadline t) (kw_deadline kw))
    (created_at t).

(** Modelled from the spec: [update_task(task_id, **fields)] of [models.py].
    An id that matches no task is a no-op that returns [False]; otherwise the
    task object is mutated in place, the collection is persisted and the call
    returns [True].  [main.py] passes [deadline] as a [datetime] or [None],
    never as text, so there is nothing to parse here. *)
Definition update_task (task_id : string) (kw : Fields)
    (hm : list Task * TaskManager) : bool * (list Task * TaskManager) :=
  let '(heap, m) := hm in
  match find_task heap task_id (tasks m) with
  | Some (r, t) =>
      let heap' := <[r := apply_fields kw t]> heap in
      (true, (heap', save heap' m))
  | None => (false, (heap, m))
  end.

(** ** The application object ([TodoApp]) *)

(** A widget that can hold the focus: a [TaskWidget] with its [task_data]
    (a reference to the task object it shows), or any other widget. *)
Inductive Widget : Type :=
  | TaskWidget (task_data : loc)
  | OtherWidget.

(** What the presentation layer asks of its collaborators, in order: the
    mutating calls on the task manager and the calls on the framework
    ([dismiss], [notify]). *)
Inductive Event : Type :=
  | add_task_call (task : loc)
  | update_task_call (task_id : string) (kw : Fields)
  | force_save_call
  | dismiss_call
  | notify_call (message : string).

(** The state the handlers of [main.py] read and write.  [heap] is the store
    of [Task] objects; a kanban column is the list of the [task_data] of its
    task widgets, and is [None] until [compose] has set the attribute. *)
Record TodoApp : Type := mk_TodoApp {
  heap : list Task;
  task_manager : TaskManager;
  sort_mode : string;
  _last_task_count : nat;
  todo_column : option (list loc);
  doing_column : option (list loc);
  done_column : option (list loc);
  trace : list Event
}.

Definition emit (e : Event) (app : TodoApp) : TodoApp :=
  mk_TodoApp (heap app) (task_manager app) (sort_mode app)
    (_last_task_count app) (todo_column app) (doing_column app)
    (done_column app) (trace app ++ [e]).

Definition with_store (h : list Task) (m : TaskManager) (app : TodoApp) : TodoApp :=
  mk_TodoApp h m (sort_mode app) (_last_task_count app) (todo_column app)
    (doing_column app) (done_column app) (trace app).

(** [self.app.dismiss()] / [self.dismiss()] and [self.notify(message)] *)
Definition dismiss (app : TodoApp) : TodoApp := emit dismiss_call app.
Definition notify (message : string) (app : TodoApp) : TodoApp :=
  emit (notify_call message) app.

(** [self.task_manager.add_task(task)] *)
Definition call_add_task (task : loc) (app : TodoApp) : TodoApp :=
  emit (add_task_call task)
    (with_store (heap app) (add_task (heap app) task (task_manager app)) app).

(** [self.task_manager.update_task(task_id, **kw)]; no caller in [main.py]
    looks at the result. *)
Definition call_update_task (task_id : string) (kw : Fields) (app : TodoApp) : TodoApp :=
  let '(_, (h, m)) := update_task task_id kw (heap app, task_manager app) in
  emit (update_task_call task_id kw) (with_store h m app).

(** [self.task_manager.force_save()] *)
Definition call_force_save (app : TodoApp) : TodoApp :=
  emit force_save_call
    (with_store (heap app) (force_save (heap app) (task_manager app)) app).

(** The tasks one column is filled with: the tasks of that status, sorted by
    the current sort mode (the body of the loop of [refresh_tasks]). *)
Definition column_tasks (app : TodoApp) (s : Status) : list loc :=
  let tasks := get_tasks_by_status (heap app) s (task_manager app) in
  if String.eqb (sort_mode app) "priority" then
    sort_tasks_by_priority (heap app) tasks
  else if String.eqb (sort_mode app) "date" then
    sort_tasks_by_date (heap app) tasks
  else if String.eqb (sort_mode app) "deadline" then
    sort_tasks_by_deadline (heap app) tasks
  else tasks.

(** [TodoApp.refresh_tasks(force)] *)
Definition refresh_tasks (force : bool) (app : TodoApp) : TodoApp :=
  let current_task_count := length (tasks (task_manager app)) in
  if negb force && (current_task_count =? _last_task_count app)%nat then app
  else
    let app :=
      mk_TodoApp (heap app) (task_manager app) (sort_mode app)
        current_task_count (todo_column app) (doing_column app)
        (done_column app) (trace app) in
    match todo_column app, doing_column app, done_column app with
    | Some _, Some _, Some _ =>
        mk_TodoApp (heap app) (task_manager app) (sort_mode app)
          (_last_task_count app)
          (Some (column_tasks app TODO))
          (Some (column_tasks app DOING))
          (Some (column_tasks app DONE))
          (trace app)
    | _, _, _ => app
    end.

(** [TodoApp.on_mount] and [TodoApp.on_unmount] *)
Definition on_mount (app : TodoApp) : TodoApp := refresh_tasks false app.
Definition on_unmount (app : TodoApp) : TodoApp := call_force_save app.

(** [TodoApp.action_toggle_sort] *)
Definition action_toggle_sort (app : TodoApp) : TodoApp :=
  let mode :=
    if String.eqb (sort_mode app) "priority" then "date"
    else if String.eqb (sort_mode app) "date" then "deadline"
    else "priority" in
  let app :=
    mk_TodoApp (heap app) (task_manager app) mode (_last_task_count app)
      (todo_column app) (doing_column app) (done_column app) (trace app) in
  let app := refresh_tasks true app in
  notify ("Sorting by " ++ sort_mode app) app.

(** [str.upper] on the letters a to z; it is applied to status tags only. *)
Definition upper_char (c : ascii) : ascii :=
  let n := nat_of_ascii c in
  if ((97 <=? n) && (n <=? 122))%nat then ascii_of_nat (n - 32) else c.

Fixpoint upper (s : string) : string :=
  match s with
  | EmptyString => EmptyString
  | String c s' => String (upper_char c) (upper s')
  end.

(** [task.title] read through a reference. *)
Definition title_of (app : TodoApp) (task : loc) : string :=
  match heap app !! task with
  | Some t => title t
  | None => ""
  end.

Definition status_only (s : Status) : Fields :=
  mk_Fields None None None (Some s) None.

(** [TodoApp.action_move_task_left]; [focused] is [self.focused].  The task
    object is read through the reference the widget holds; a reference
    always points to an object, so the [None] branch of the lookup is never
    taken. *)
Definition action_move_task_left (focused : option Widget) (app : TodoApp) : TodoApp :=
  match focused with
  | Some (TaskWidget task) =>
      match heap app !! task with
      | Some t =>
          let new_status :=
            match status t with
            | DONE => Some DOING
            | DOING => Some TODO
            | TODO => None
            end in
          match new_status with
          | Some s =>
              let app := call_update_task (id t) (status_only s) app in
              let app := refresh_tasks true app in
              notify ("Moved '" ++ title_of app task ++ "' to " ++ upper (value s)) app
          | None => app
          end
      | None => app
      end
  | _ => app
  end.

(** [TodoApp.action_move_task_right] *)
Definition action_move_task_right (focused : option Widget) (app : TodoApp) : TodoApp :=
  match focused with
  | Some (TaskWidget task) =>
      match heap app !! task with
      | Some t =>
          let new_status :=
            match status t with
            | TODO => Some DOING
            | DOING => Some DONE
            | DONE => None
            end in
          match new_status with
          | Some s =>
              let app := call_update_task (id t) (status_only s) app in
              let app := refresh_tasks true app in
              notify ("Moved '" ++ title_of app task ++ "' to " ++ upper (value s)) app
          | None => app
          end
      | None => app
      end
  | _ => app
  end.

(** [TodoApp.__init__]: the manager as its constructor left it, with the
    objects it loaded, the sort mode ["priority"], a last task count of 0 and
    no column attribute yet. *)
Definition TodoApp_init (h : list Task) (m : TaskManager) : TodoApp :=
  mk_TodoApp h m "priority" 0 None None None [].

(** [TodoApp.compose]: the three columns are created, each without task
    widgets. *)
Definition compose (app : TodoApp) : TodoApp :=
  mk_TodoApp (heap app) (task_manager app) (sort_mode app)
    (_last_task_count app) (Some []) (Some []) (Some []) (trace app).

(** [KanbanColumn.add_task] and [KanbanColumn.clear_tasks] on the list of
    the [task_data] of the widgets of a column. *)
Definition KanbanColumn_add_task (task : loc) (column : list loc) : list loc :=
  column ++ [task].
Definition KanbanColumn_clear_tasks (column : list loc) : list loc := [].

(** ** The modal screens *)

Module NewTaskScreen.

(** The values of the four inputs of the form when Create is pressed; the
    priority [Select] is read at one of its four options. *)
Record screen : Type := mk_screen {
  title_input : string;
  description_input : string;
  deadline_input : string;
  priority_select : Priority
}.

(** [NewTaskScreen.create_task].  [uuid4] is the text of the fresh
    [uuid.uuid4()] and [now] the clock reading of the [Task] constructor. *)
Definition create_task (uuid4 : string) (now : datetime) (self : screen)
    (app : TodoApp) : TodoApp :=
  let title := strip (title_input self) in
  if negb (truthy title) then app
  else
    let description := strip (description_input self) in
    let priority := priority_select self in
    let deadline_str := strip (deadline_input self) in
    let deadline :=
      if truthy deadline_str then
        match strptime deadline_str with
        | inr d => Some d
        | inl ValueError => None
        end
      else None in
    let task := length (heap app) in
    let app :=
      with_store
        (heap app ++ [Task_init now uuid4 title description priority deadline])
        (task_manager app) app in
    let app := call_add_task task app in
    let app := refresh_tasks true app in
    dismiss app.

(** [NewTaskScreen.on_button_pressed]; [button_id] is [event.button.id]. *)
Definition on_button_pressed (button_id : option string) (uuid4 : string)
    (now : datetime) (self : screen) (app : TodoApp) : TodoApp :=
  match button_id with
  | Some b =>
      if String.eqb b "create-button" then create_task uuid4 now self app
      else if String.eqb b "cancel-button" then dismiss app
      else app
  | None => app
  end.

End NewTaskScreen.

Module EditTaskScreen.

(** The task object the screen was opened on and the values of the five
    inputs of the form when Save is pressed; the two [Select]s are read at
    one of their options. *)
Record screen : Type := mk_screen {
  _task_obj : loc;
  title_input : string;
  description_input : string;
  deadline_input : string;
  priority_select : Priority;
  status_select : Status
}.

(** The status [Select] of [EditTaskScreen.compose]: its options, whatever
    the task, and its initial value. *)
Definition compose_status_select (task : Task) : list (string * Status) * Status :=
  ([("Todo", TODO); ("Doing", DOING); ("Done", DONE)], status task).

(** [EditTaskScreen.save_task].  [self._task_obj] is read through its
    reference; a reference always points to an object, so the last branch
    is never taken. *)
Definition save_task (self : screen) (app : TodoApp) : TodoApp :=
  let title := strip (title_input self) in
  if negb (truthy title) then app
  else
    match heap app !! _task_obj self with
    | Some task_obj =>
        let deadline_str := strip (deadline_input self) in
        let deadline :=
          if truthy deadline_str then
            match strptime deadline_str with
            | inr d => Some d
            | inl ValueError => deadline task_obj
            end
          else None in
        let app :=
          call_update_task (id task_obj)
            (mk_Fields (Some title)
               (Some (strip (description_input self)))
               (Some (priority_select self))
               (Some (status_select self))
               (Some deadline)) app in
        let app := refresh_tasks true app in
        dismiss app
    | None => app
    end.

(** [EditTaskScreen.compose]: the values the five inputs start with, for
    the screen opened on the task object [task_obj] whose fields are [t]. *)
Definition compose (task_obj : loc) (t : Task) : screen :=
  mk_screen task_obj (title t) (description t)
    (match deadline t with
     | Some d => strftime d
     | None => ""
     end)
    (priority t) (snd (compose_status_select t)).

End EditTaskScreen.

(** ** Concrete states used by the examples *)

Definition milk : Task :=
  mk_Task "a1" "Buy milk" "" NOT_URGENT_NOT_IMPORTANT TODO
    (Some (mk_datetime 2024 3 1 0 0 0 0)) (mk_datetime 2024 1 1 9 0 0 0).

Definition report : Task :=
  mk_Task "b2" "Send report" "quarterly" URGENT_IMPORTANT DONE
    None (mk_datetime 2024 1 2 9 0 0 0).

(** A mounted board showing [milk] under TODO and [report] under DONE, in
    step with the two tasks of the manager. *)
Definition board : TodoApp :=
  mk_TodoApp [milk; report] (mk_TaskManager [0; 1]%nat [milk; report])
    "priority" 2 (Some [0%nat]) (Some []) (Some [1%nat]) [].

Definition noon : datetime := mk_datetime 2024 5 1 12 0 0 0.

(** The number of [force_save] calls of a trace. *)
Definition force_save_calls (tr : list Event) : nat :=
  length (List.filter (fun e => match e with force_save_call => true | _ => false end) tr).

(** ** What the two screens leave behind *)

(** What [create_task] leaves behind when the title is not blank, for the
    deadline [dl] its parsing step came to. *)
Definition created (uuid4 : string) (now : datetime) (self : NewTaskScreen.screen)
    (dl : option datetime) (app app' : TodoApp) : Prop :=
  let task := length (heap app) in
  heap app' =
    (heap app ++ [Task_init now uuid4 (strip (NewTaskScreen.title_input self))
                    (strip (NewTaskScreen.description_input self))
                    (NewTaskScreen.priority_select self) dl])%list /\
  trace app' = (trace app ++ [add_task_call task; dismiss_call])%list /\
  tasks (task_manager app') = (tasks (task_manager app) ++ [task])%list.

(** The keyword arguments [save_task] passes to [update_task] when the
    screen was opened on the task object [t]. *)
Definition save_fields (self : EditTaskScreen.screen) (t : Task) : Fields :=
  mk_Fields
    (Some (strip (EditTaskScreen.title_input self)))
    (Some (strip (EditTaskScreen.description_input self)))
    (Some (EditTaskScreen.priority_select self))
    (Some (EditTaskScreen.status_select self))
    (Some (if truthy (strip (EditTaskScreen.deadline_input self)) then
             match strptime (strip (EditTaskScreen.deadline_input self)) with
             | inr d => Some d
             | inl ValueError => deadline t
             end
           else None)).

(** ** Properties of a state *)

(** The three column attributes exist. *)
Definition mounted (app : TodoApp) : Prop :=
  is_Some (todo_column app) /\ is_Some (doing_column app) /\
  is_Some (done_column app).

(** The board shows what a refresh would show, and the count the refresh
    remembers is the current one. *)
Definition in_sync (app : TodoApp) : Prop :=
  todo_column app = Some (column_tasks app TODO) /\
  doing_column app = Some (column_tasks app DOING) /\
  done_column app = Some (column_tasks app DONE) /\
  _last_task_count app = length (tasks (task_manager app)).

(** A title as the two screens store it: not empty, no whitespace at either
    end. *)
Definition trimmed (s : string) : Prop := strip s = s /\ truthy s = true.

Definition titles_trimmed (app : TodoApp) : Prop :=
  Forall (fun t => trimmed (title t)) (heap app).

(** A calendar date at midnight, as [strptime] with [%Y-%m-%d] returns. *)
Definition is_date (d : datetime) : Prop :=
  (1 <= year d <= 9999)%Z /\ (1 <= month d <= 12)%Z /\
  (1 <= day d <= days_in_month (year d) (month d))%Z /\
  hour d = 0%Z /\ minute d = 0%Z /\ second d = 0%Z /\ microsecond d = 0%Z.

(** The status a reference points to. *)
Definition status_of (h : list Task) (r : loc) : option Status :=
  status <$> h !! r.

(** The column attribute that shows a status. *)
Definition column_of (app : TodoApp) (s : Status) : option (list loc) :=
  match s with
  | TODO => todo_column app
  | DOING => doing_column app
  | DONE => done_column app
  end.

(** A string that is empty or starts with a character that is no
    whitespace, and a string without any whitespace. *)
Definition head_ok (s : string) : Prop :=
  match s with
  | EmptyString => True
  | String c _ => isspace c = false
  end.

Fixpoint no_space (s : string) : Prop :=
  match s with
  | EmptyString => True
  | String c s' => isspace c = false /\ no_space s'
  end.

(** ** Frame lemmas *)

Lemma refresh_tasks_heap force app : heap (refresh_tasks force app) = heap app.
Proof.
  unfold refresh_tasks.
  destruct (negb force && _) eqn:E; [reflexivity|]. simpl.
  destruct (todo_column app), (doing_column app), (done_column app); reflexivity.
Qed.

Lemma refresh_tasks_trace force app : trace (refresh_tasks force app) = trace app.
Proof.
  unfold refresh_tasks.
  destruct (negb force && _) eqn:E; [reflexivity|]. simpl.
  destruct (todo_column app), (doing_column app), (done_column app); reflexivity.
Qed.

Lemma refresh_tasks_task_manager force app :
  task_manager (refresh_tasks force app) = task_manager app.
Proof.
  unfold refresh_tasks.
  destruct (negb force && _) eqn:E; [reflexivity|]. simpl.
  destruct (todo_column app), (doing_column app), (done_column app); reflexivity.
Qed.

Lemma find_task_lookup h task_id l r t :
  find_task h task_id l = Some (r, t) -> h !! r = Some t /\ id t = task_id /\ In r l.
Proof.
  induction l as [|r' l IH]; simpl; [discriminate|].
  destruct (h !! r') as [t'|] eqn:E.
  - destruct (String.eqb (id t') task_id) eqn:Eid.
    + intros [= <- <-]. apply String.eqb_eq in Eid. auto.
    + intros H. destruct (IH H) as (? & ? & ?). auto.
  - intros H. destruct (IH H) as (? & ? & ?). auto.
Qed.

(** ** Saving and creating with a blank title *)

(** C3: a create attempt whose title trims to the empty string changes
    nothing: no task object is built, the collection and the persisted
    snapshot are as before, no call is made, and the function returns
    normally. *)
Theorem create_task_blank_title uuid4 now (self : NewTaskScreen.screen) app :
  strip (NewTaskScreen.title_input self) = "" ->
  NewTaskScreen.create_task uuid4 now self app = app.
Proof.
  intros Hblank. unfold NewTaskScreen.create_task.
  rewrite Hblank. reflexivity.
Qed.

Lemma create_task_blank_title_witness :
  NewTaskScreen.create_task "c3" noon
    (NewTaskScreen.mk_screen "   " "notes" "2024-12-31" URGENT_IMPORTANT) board
  = board.
Proof. apply create_task_blank_title. reflexivity. Defined.

(** C1, as stated, fails: saving [milk] with a blank title and new values in
    all four other inputs applies none of them. *)
Lemma save_task_blank_title_applies_nothing :
  let self :=
    EditTaskScreen.mk_screen 0 "  " "two litres" "2024-12-31" URGENT_IMPORTANT DONE in
  strip (EditTaskScreen.title_input self) = "" /\
  heap board !! EditTaskScreen._task_obj self = Some milk /\
  ~ (exists t, heap (EditTaskScreen.save_task self board) !! 0%nat = Some t /\
               description t = "two litres" /\
               priority t = URGENT_IMPORTANT /\
               status t = DONE /\
               deadline t = Some (mk_datetime 2024 12 31 0 0 0 0)).
Proof.
  simpl. split; [reflexivity|]. split; [reflexivity|].
  intros (t & Ht & _ & _ & Hs & _).
  vm_compute in Ht. injection Ht as <-. discriminate Hs.
Qed.

(** C1, amended: a save whose title trims to the empty string is rejected as
    a whole: the application state is exactly as before, so no field of any
    task changes, nothing is persisted, the board is not refreshed and the
    screen is not dismissed. *)
Theorem save_task_blank_title (self : EditTaskScreen.screen) app :
  strip (EditTaskScreen.title_input self) = "" ->
  EditTaskScreen.save_task self app = app.
Proof.
  intros Hblank. unfold EditTaskScreen.save_task.
  rewrite Hblank. reflexivity.
Qed.

Lemma save_task_blank_title_witness :
  EditTaskScreen.save_task
    (EditTaskScreen.mk_screen 0 "  " "two litres" "2024-12-31" URGENT_IMPORTANT DONE)
    board
  = board.
Proof. apply save_task_blank_title. reflexivity. Defined.

(** ** Who builds a task *)

Lemma create_task_created uuid4 now (self : NewTaskScreen.screen) app :
  truthy (strip (NewTaskScreen.title_input self)) = true ->
  created uuid4 now self
    (if truthy (strip (NewTaskScreen.deadline_input self)) then
       match strptime (strip (NewTaskScreen.deadline_input self)) with
       | inr d => Some d
       | inl ValueError => None
       end
     else None)
    app (NewTaskScreen.create_task uuid4 now self app).
Proof.
  intros Htitle. unfold created, NewTaskScreen.create_task.
  rewrite Htitle. cbn [negb].
  unfold dismiss, emit. cbn [heap trace task_manager].
  rewrite refresh_tasks_heap, refresh_tasks_trace, refresh_tasks_task_manager.
  unfold call_add_task, emit, with_store. cbn [heap trace task_manager].
  unfold add_task, save. cbn [tasks].
  rewrite <- app_assoc. auto.
Qed.

(** C2, as stated, fails: the id of a created task is whatever the screen
    passes in.  The same form on the same board with two different uuids
    gives two tasks that differ in their id, each built by the screen and
    handed to [add_task]. *)
Lemma create_task_id_chosen_by_screen :
  let self := NewTaskScreen.mk_screen "Call Ann" "" "" NOT_URGENT_IMPORTANT in
  let a := NewTaskScreen.create_task "uuid-1" noon self board in
  let b := NewTaskScreen.create_task "uuid-2" noon self board in
  id <$> heap a !! 2%nat = Some "uuid-1" /\
  id <$> heap b !! 2%nat = Some "uuid-2" /\
  trace a = [add_task_call 2; dismiss_call] /\
  trace b = [add_task_call 2; dismiss_call] /\
  id <$> heap a !! 2%nat <> id <$> heap b !! 2%nat.
Proof. vm_compute. repeat split; discriminate. Qed.

(** C2, amended: the task is built by [NewTaskScreen.create_task], a caller
    outside the manager: for a title that is not blank it constructs one
    [Task] whose id is the uuid the screen generated, whose title and
    description are the trimmed inputs and whose priority is the selected
    one, and hands that object to the manager's [add_task], its only call on
    the manager. *)
Theorem create_task_builds_task uuid4 now (self : NewTaskScreen.screen) app :
  truthy (strip (NewTaskScreen.title_input self)) = true ->
  let app' := NewTaskScreen.create_task uuid4 now self app in
  exists t,
    heap app' = (heap app ++ [t])%list /\
    id t = uuid4 /\
    title t = strip (NewTaskScreen.title_input self) /\
    description t = strip (NewTaskScreen.description_input self) /\
    priority t = NewTaskScreen.priority_select self /\
    trace app' = (trace app ++ [add_task_call (length (heap app)); dismiss_call])%list.
Proof.
  intros Htitle app'.
  destruct (create_task_created uuid4 now self app Htitle) as (Hh & Ht & _).
  eexists. split; [exact Hh|]. cbn. auto.
Qed.

Lemma create_task_builds_task_witness :
  exists t,
    heap (NewTaskScreen.create_task "uuid-1" noon
            (NewTaskScreen.mk_screen " Call Ann " "" "" NOT_URGENT_IMPORTANT) board)
      = (heap board ++ [t])%list /\
    id t = "uuid-1" /\
    title t = "Call Ann" /\
    description t = "" /\
    priority t = NOT_URGENT_IMPORTANT /\
    trace (NewTaskScreen.create_task "uuid-1" noon
             (NewTaskScreen.mk_screen " Call Ann " "" "" NOT_URGENT_IMPORTANT) board)
      = (trace board ++ [add_task_call (length (heap board)); dismiss_call])%list.
Proof.
  apply (create_task_builds_task "uuid-1" noon
           (NewTaskScreen.mk_screen " Call Ann " "" "" NOT_URGENT_IMPORTANT) board).
  reflexivity.
Defined.

(** ** Deadline text that does not parse *)

(** C5: a create whose deadline text is not empty and is refused by
    [strptime] with the pattern [%Y-%m-%d] still creates the task: the
    screen builds it with no deadline, hands it to [add_task], and it is the
    last task of the collection. *)
Theorem create_task_unparseable_deadline uuid4 now (self : NewTaskScreen.screen) app :
  truthy (strip (NewTaskScreen.title_input self)) = true ->
  truthy (strip (NewTaskScreen.deadline_input self)) = true ->
  strptime (strip (NewTaskScreen.deadline_input self)) = inl ValueError ->
  let app' := NewTaskScreen.create_task uuid4 now self app in
  let task := length (heap app) in
  deadline <$> heap app' !! task = Some None /\
  id <$> heap app' !! task = Some uuid4 /\
  trace app' = (trace app ++ [add_task_call task; dismiss_call])%list /\
  tasks (task_manager app') = (tasks (task_manager app) ++ [task])%list.
Proof.
  intros Htitle Hdl Hparse app' task.
  pose proof (create_task_created uuid4 now self app Htitle) as Hc.
  rewrite Hdl, Hparse in Hc. destruct Hc as (Hh & Ht & Hm).
  fold app' in Hh, Ht, Hm. rewrite Hh.
  unfold task. rewrite !list_lookup_middle by reflexivity.
  cbn. auto.
Qed.

Lemma create_task_unparseable_deadline_witness :
  let self := NewTaskScreen.mk_screen "Call Ann" "" "next friday" NOT_URGENT_IMPORTANT in
  let app' := NewTaskScreen.create_task "uuid-1" noon self board in
  deadline <$> heap app' !! 2%nat = Some None /\
  id <$> heap app' !! 2%nat = Some "uuid-1" /\
  trace app' = (trace board ++ [add_task_call 2%nat; dismiss_call])%list /\
  tasks (task_manager app') = (tasks (task_manager board) ++ [2%nat])%list.
Proof.
  apply (create_task_unparseable_deadline "uuid-1" noon
           (NewTaskScreen.mk_screen "Call Ann" "" "next friday" NOT_URGENT_IMPORTANT)
           board); reflexivity.
Defined.

(** ** Saving an edited task *)

Lemma call_update_task_found task_id kw app r t :
  find_task (heap app) task_id (tasks (task_manager app)) = Some (r, t) ->
  heap (call_update_task task_id kw app) = <[r := apply_fields kw t]> (heap app) /\
  trace (call_update_task task_id kw app)
    = (trace app ++ [update_task_call task_id kw])%list /\
  tasks (task_manager (call_update_task task_id kw app)) = tasks (task_manager app).
Proof.
  intros Hfind. unfold call_update_task, update_task.
  rewrite Hfind. cbn. auto.
Qed.

Lemma call_update_task_frame task_id kw app :
  length (tasks (task_manager (call_update_task task_id kw app)))
    = length (tasks (task_manager app)) /\
  _last_task_count (call_update_task task_id kw app) = _last_task_count app /\
  todo_column (call_update_task task_id kw app) = todo_column app /\
  doing_column (call_update_task task_id kw app) = doing_column app /\
  done_column (call_update_task task_id kw app) = done_column app.
Proof.
  unfold call_update_task, update_task.
  destruct (find_task _ _ _) as [[r t]|]; cbn; auto.
Qed.

Lemma save_task_saved (self : EditTaskScreen.screen) app t :
  truthy (strip (EditTaskScreen.title_input self)) = true ->
  find_task (heap app) (id t) (tasks (task_manager app))
    = Some (EditTaskScreen._task_obj self, t) ->
  let app' := EditTaskScreen.save_task self app in
  heap app' !! EditTaskScreen._task_obj self
    = Some (apply_fields (save_fields self t) t) /\
  trace app'
    = (trace app ++ [update_task_call (id t) (save_fields self t); dismiss_call])%list.
Proof.
  intros Htitle Hfind app'. subst app'.
  destruct (find_task_lookup _ _ _ _ _ Hfind) as (Hlook & _ & _).
  unfold EditTaskScreen.save_task. rewrite Htitle, Hlook. cbn [negb].
  fold (save_fields self t).
  unfold dismiss, emit. cbn [heap trace].
  rewrite refresh_tasks_heap, refresh_tasks_trace.
  destruct (call_update_task_found (id t) (save_fields self t) app _ _ Hfind)
    as (Hh & Ht & _).
  rewrite Hh, Ht. split.
  - apply list_lookup_insert_eq. eapply lookup_lt_Some; eauto.
  - rewrite <- app_assoc. reflexivity.
Qed.

(** C4: when an existing task is saved with a deadline text that is not
    empty and that [strptime] refuses, [update_task] is called with the
    deadline the task object already had, and the task keeps that
    deadline. *)
Theorem save_task_unparseable_deadline (self : EditTaskScreen.screen) app t :
  truthy (strip (EditTaskScreen.title_input self)) = true ->
  find_task (heap app) (id t) (tasks (task_manager app))
    = Some (EditTaskScreen._task_obj self, t) ->
  truthy (strip (EditTaskScreen.deadline_input self)) = true ->
  strptime (strip (EditTaskScreen.deadline_input self)) = inl ValueError ->
  let app' := EditTaskScreen.save_task self app in
  (exists kw, In (update_task_call (id t) kw) (trace app') /\
              kw_deadline kw = Some (deadline t)) /\
  deadline <$> heap app' !! EditTaskScreen._task_obj self = Some (deadline t).
Proof.
  intros Htitle Hfind Hdl Hparse app'.
  destruct (save_task_saved self app t Htitle Hfind) as (Hh & Ht).
  fold app' in Hh, Ht.
  assert (Hkw : kw_deadline (save_fields self t) = Some (deadline t)).
  { unfold save_fields. cbn. rewrite Hdl, Hparse. reflexivity. }
  split.
  - exists (save_fields self t). split; [|exact Hkw].
    rewrite Ht. apply in_or_app. right. left. reflexivity.
  - rewrite Hh. cbn [fmap option_fmap option_map apply_fields deadline].
    rewrite Hkw. reflexivity.
Qed.

Lemma save_task_unparseable_deadline_witness :
  let self :=
    EditTaskScreen.mk_screen 0 "Buy oat milk" "" "1st of March" URGENT_IMPORTANT DOING in
  let app' := EditTaskScreen.save_task self board in
  (exists kw, In (update_task_call (id milk) kw) (trace app') /\
              kw_deadline kw = Some (deadline milk)) /\
  deadline <$> heap app' !! 0%nat = Some (Some (mk_datetime 2024 3 1 0 0 0 0)).
Proof.
  apply (save_task_unparseable_deadline
           (EditTaskScreen.mk_screen 0 "Buy oat milk" "" "1st of March"
              URGENT_IMPORTANT DOING) board milk); reflexivity.
Defined.

(** C9, as stated, fails: a save whose title is blank returns before the
    deadline is looked at, so [milk], saved with the title ["  "] and an
    empty deadline text, keeps its deadline of 2024-03-01. *)
Lemma save_task_blank_title_keeps_deadline :
  let self :=
    EditTaskScreen.mk_screen 0 "  " "" "" NOT_URGENT_NOT_IMPORTANT TODO in
  strip (EditTaskScreen.deadline_input self) = "" /\
  heap board !! EditTaskScreen._task_obj self = Some milk /\
  deadline <$> heap (EditTaskScreen.save_task self board) !! 0%nat
    = Some (Some (mk_datetime 2024 3 1 0 0 0 0)) /\
  deadline <$> heap (EditTaskScreen.save_task self board) !! 0%nat <> Some None.
Proof.
  cbv zeta. split; [reflexivity|]. split; [reflexivity|].
  split; [reflexivity | discriminate].
Qed.

(** C9, amended: when an existing task is saved with a title that is not
    blank and a deadline text that is empty or only whitespace,
    [update_task] is called with [deadline=None] and the task ends with no
    deadline, whatever it had before; a text that parses replaces the
    deadline by the parsed date.  With C4, keeping the previous deadline is
    left to the text that is not empty and does not parse. *)
Theorem save_task_blank_deadline (self : EditTaskScreen.screen) app t :
  truthy (strip (EditTaskScreen.title_input self)) = true ->
  find_task (heap app) (id t) (tasks (task_manager app))
    = Some (EditTaskScreen._task_obj self, t) ->
  let app' := EditTaskScreen.save_task self app in
  (strip (EditTaskScreen.deadline_input self) = "" ->
   (exists kw, In (update_task_call (id t) kw) (trace app') /\
               kw_deadline kw = Some None) /\
   deadline <$> heap app' !! EditTaskScreen._task_obj self = Some None) /\
  (forall d, strptime (strip (EditTaskScreen.deadline_input self)) = inr d ->
   deadline <$> heap app' !! EditTaskScreen._task_obj self = Some (Some d)).
Proof.
  intros Htitle Hfind app'.
  destruct (save_task_saved self app t Htitle Hfind) as (Hh & Ht).
  fold app' in Hh, Ht. split.
  - intros Hblank.
    assert (Hkw : kw_deadline (save_fields self t) = Some None).
    { unfold save_fields. cbn. rewrite Hblank. reflexivity. }
    split.
    + exists (save_fields self t). split; [|exact Hkw].
      rewrite Ht. apply in_or_app. right. left. reflexivity.
    + rewrite Hh. cbn [fmap option_fmap option_map apply_fields deadline].
      rewrite Hkw. reflexivity.
  - intros d Hparse.
    assert (Hkw : kw_deadline (save_fields self t) = Some (Some d)).
    { unfold save_fields. cbn. rewrite Hparse.
      destruct (strip (EditTaskScreen.deadline_input self)) eqn:E;
        [discriminate Hparse | reflexivity]. }
    rewrite Hh. cbn [fmap option_fmap option_map apply_fields deadline].
    rewrite Hkw. reflexivity.
Qed.

Lemma save_task_blank_deadline_witness :
  let self := EditTaskScreen.mk_screen 0 "Buy oat milk" "" "   " URGENT_IMPORTANT DOING in
  deadline milk = Some (mk_datetime 2024 3 1 0 0 0 0) /\
  (exists kw, In (update_task_call (id milk) kw)
                (trace (EditTaskScreen.save_task self board)) /\
              kw_deadline kw = Some None) /\
  deadline <$> heap (EditTaskScreen.save_task self board) !! 0%nat = Some None.
Proof.
  split; [reflexivity|].
  apply (save_task_blank_deadline
           (EditTaskScreen.mk_screen 0 "Buy oat milk" "" "   " URGENT_IMPORTANT DOING)
           board milk); reflexivity.
Defined.

(** ** Status changes *)

(** C7: for a task of the manager in any status [from] and any status [to],
    [update_task] with [status=to] returns [True] and leaves the task in
    status [to]; the edit screen offers [to] whatever the current status is,
    and saving with [to] selected leaves the task in status [to]. *)
Theorem status_change_unrestricted (from to : Status) app r t :
  find_task (heap app) (id t) (tasks (task_manager app)) = Some (r, t) ->
  status t = from ->
  let res := update_task (id t) (status_only to) (heap app, task_manager app) in
  fst res = true /\
  status <$> fst (snd res) !! r = Some to /\
  In to (map snd (fst (EditTaskScreen.compose_status_select t))) /\
  forall self : EditTaskScreen.screen,
    EditTaskScreen._task_obj self = r ->
    truthy (strip (EditTaskScreen.title_input self)) = true ->
    EditTaskScreen.status_select self = to ->
    status <$> heap (EditTaskScreen.save_task self app) !! r = Some to.
Proof.
  intros Hfind _ res.
  destruct (find_task_lookup _ _ _ _ _ Hfind) as (Hlook & _ & _).
  pose proof (lookup_lt_Some _ _ _ Hlook) as Hlt.
  subst res. unfold update_task. rewrite Hfind. cbn [fst snd].
  split; [reflexivity|]. split.
  { rewrite list_lookup_insert_eq by exact Hlt. reflexivity. }
  split.
  { destruct to; cbn; auto. }
  intros self Hobj Htitle Hsel. subst r.
  destruct (save_task_saved self app t Htitle Hfind) as (Hh & _).
  rewrite Hh. cbn. rewrite Hsel. reflexivity.
Qed.

Lemma status_change_unrestricted_witness :
  let res := update_task "b2" (status_only TODO) (heap board, task_manager board) in
  status report = DONE /\
  fst res = true /\
  status <$> fst (snd res) !! 1%nat = Some TODO /\
  In TODO (map snd (fst (EditTaskScreen.compose_status_select report))) /\
  forall self : EditTaskScreen.screen,
    EditTaskScreen._task_obj self = 1%nat ->
    truthy (strip (EditTaskScreen.title_input self)) = true ->
    EditTaskScreen.status_select self = TODO ->
    status <$> heap (EditTaskScreen.save_task self board) !! 1%nat = Some TODO.
Proof.
  split; [reflexivity|].
  apply (status_change_unrestricted DONE TODO board 1%nat report); reflexivity.
Defined.

(** ** Refreshing the board *)

(** C6: an unforced refresh with the task count it saw last changes nothing,
    so it rebuilds the columns only when the count differs; and after an
    [update_task] call, which edits a task in place, an unforced refresh
    leaves the three columns as they were before the edit. *)
Theorem refresh_tasks_count_gate app :
  length (tasks (task_manager app)) = _last_task_count app ->
  refresh_tasks false app = app /\
  forall task_id kw,
    let edited := call_update_task task_id kw app in
    todo_column (refresh_tasks false edited) = todo_column app /\
    doing_column (refresh_tasks false edited) = doing_column app /\
    done_column (refresh_tasks false edited) = done_column app.
Proof.
  intros Hcount.
  assert (Hskip : forall a, length (tasks (task_manager a)) = _last_task_count a ->
                            refresh_tasks false a = a).
  { intros a Ha. unfold refresh_tasks. rewrite Ha, Nat.eqb_refl. reflexivity. }
  split; [apply Hskip; exact Hcount|].
  intros task_id kw edited.
  destruct (call_update_task_frame task_id kw app) as (Hlen & Hlast & H1 & H2 & H3).
  fold edited in Hlen, Hlast, H1, H2, H3.
  rewrite Hskip by congruence. auto.
Qed.

Lemma refresh_tasks_count_gate_witness :
  refresh_tasks false board = board /\
  forall task_id kw,
    let edited := call_update_task task_id kw board in
    todo_column (refresh_tasks false edited) = todo_column board /\
    doing_column (refresh_tasks false edited) = doing_column board /\
    done_column (refresh_tasks false edited) = done_column board.
Proof. apply refresh_tasks_count_gate. reflexivity. Defined.

(** The other side of the gate: with a different count, or when forced, the
    refresh records the count and, on a mounted board, refills the columns. *)
Lemma refresh_tasks_rebuilds force app c1 c2 c3 :
  force = true \/ length (tasks (task_manager app)) <> _last_task_count app ->
  todo_column app = Some c1 -> doing_column app = Some c2 -> done_column app = Some c3 ->
  _last_task_count (refresh_tasks force app) = length (tasks (task_manager app)) /\
  todo_column (refresh_tasks force app) = Some (column_tasks app TODO) /\
  doing_column (refresh_tasks force app) = Some (column_tasks app DOING) /\
  done_column (refresh_tasks force app) = Some (column_tasks app DONE).
Proof.
  intros Hgate H1 H2 H3. unfold refresh_tasks.
  assert (negb force && (length (tasks (task_manager app)) =? _last_task_count app)%nat
          = false) as ->.
  { destruct Hgate as [-> | Hne]; [reflexivity|].
    apply Nat.eqb_neq in Hne. rewrite Hne. apply andb_false_r. }
  cbn [todo_column doing_column done_column]. rewrite H1, H2, H3.
  cbn. unfold column_tasks. cbn. auto.
Qed.

(** The stale board: [milk] is moved to DONE in place; the unforced refresh
    still shows it under TODO, the forced one moves it. *)
Example refresh_tasks_stale :
  let edited := call_update_task "a1" (status_only DONE) board in
  todo_column (refresh_tasks false edited) = Some [0%nat] /\
  done_column (refresh_tasks false edited) = Some [1%nat] /\
  todo_column (refresh_tasks true edited) = Some [] /\
  done_column (refresh_tasks true edited) = Some [1%nat; 0%nat].
Proof. vm_compute. auto. Qed.

(** ** Shutdown *)

(** C8: [on_unmount] calls [force_save] exactly once, whatever the state and
    whatever was saved before: the trace grows by that one call, and the
    snapshot in storage is the collection as it is. *)
Theorem on_unmount_force_save_once app :
  trace (on_unmount app) = (trace app ++ [force_save_call])%list /\
  force_save_calls (trace (on_unmount app)) = S (force_save_calls (trace app)) /\
  task_manager (on_unmount app) = force_save (heap app) (task_manager app) /\
  heap (on_unmount app) = heap app.
Proof.
  unfold on_unmount, call_force_save, emit, with_store. cbn.
  repeat split. unfold force_save_calls.
  rewrite List.filter_app, length_app. cbn. lia.
Qed.

(** ** Moving a task at the edge of the board *)

(** C10: moving the focused task left when it is in TODO, or right when it
    is in DONE, leaves the application state exactly as it was: no
    [update_task] call, nothing persisted, no refresh, no notification. *)
Theorem move_task_at_edge app task t :
  heap app !! task = Some t ->
  (status t = TODO -> action_move_task_left (Some (TaskWidget task)) app = app) /\
  (status t = DONE -> action_move_task_right (Some (TaskWidget task)) app = app).
Proof.
  intros Hlook. unfold action_move_task_left, action_move_task_right.
  rewrite Hlook. split; intros ->; reflexivity.
Qed.

Lemma move_task_at_edge_witness :
  action_move_task_left (Some (TaskWidget 0)) board = board /\
  action_move_task_right (Some (TaskWidget 1)) board = board.
Proof.
  split.
  - apply (proj1 (move_task_at_edge board 0%nat milk eq_refl)). reflexivity.
  - apply (proj2 (move_task_at_edge board 1%nat report eq_refl)). reflexivity.
Defined.

(** Away from the edge the move does call [update_task]. *)
Example move_task_right_from_todo :
  let app' := action_move_task_right (Some (TaskWidget 0)) board in
  trace app' = [update_task_call "a1" (status_only DOING);
                notify_call "Moved 'Buy milk' to DOING"] /\
  status <$> heap app' !! 0%nat = Some DOING /\
  doing_column app' = Some [0%nat].
Proof. vm_compute. auto. Qed.

(** ** The date parser on sample texts *)

Example strptime_padded :
  strptime "2024-12-31" = inr (mk_datetime 2024 12 31 0 0 0 0).
Proof. reflexivity. Qed.

Example strptime_unpadded :
  strptime "2024-1-5" = inr (mk_datetime 2024 1 5 0 0 0 0).
Proof. reflexivity. Qed.

Example strptime_no_such_day : strptime "2024-02-30" = inl ValueError.
Proof. reflexivity. Qed.

Example strptime_words : strptime "tomorrow" = inl ValueError.
Proof. reflexivity. Qed.

Example strip_both_ends : strip "  a b  " = "a b".
Proof. reflexivity. Qed.

(** ** Trimming *)

Lemma lstrip_head_ok s : head_ok (lstrip s).
Proof.
  induction s as [|c s IH]; simpl; [exact I|].
  destruct (isspace c) eqn:E; [exact IH | exact E].
Qed.

Lemma lstrip_id s : head_ok s -> lstrip s = s.
Proof. destruct s as [|c s]; simpl; [reflexivity|]. intros ->. reflexivity. Qed.

Lemma rstrip_head_ok s : head_ok s -> head_ok (rstrip s).
Proof.
  destruct s as [|c s]; simpl; [auto|]. intros Hc.
  destruct (rstrip s); [rewrite Hc|]; exact Hc.
Qed.

Lemma rstrip_idem s : rstrip (rstrip s) = rstrip s.
Proof.
  induction s as [|c s IH]; [reflexivity|]. simpl.
  destruct (rstrip s) as [|a r] eqn:E.
  - destruct (isspace c) eqn:Ec; [reflexivity|]. simpl. rewrite Ec. reflexivity.
  - change (rstrip (String c (String a r))) with
      (match rstrip (String a r) with
       | EmptyString => if isspace c then EmptyString else String c EmptyString
       | String a' r' => String c (String a' r')
       end).
    rewrite IH. reflexivity.
Qed.

Lemma strip_idem s : strip (strip s) = strip s.
Proof.
  unfold strip.
  rewrite (lstrip_id (rstrip (lstrip s))).
  - apply rstrip_idem.
  - apply rstrip_head_ok, lstrip_head_ok.
Qed.

Lemma strip_trimmed s : truthy (strip s) = true -> trimmed (strip s).
Proof. intros H. split; [apply strip_idem | exact H]. Qed.

(** ** More on refreshing the board *)

Lemma refresh_tasks_sort_mode force app :
  sort_mode (refresh_tasks force app) = sort_mode app.
Proof.
  unfold refresh_tasks.
  destruct (negb force && _) eqn:E; [reflexivity|]. simpl.
  destruct (todo_column app), (doing_column app), (done_column app); reflexivity.
Qed.

(** X1: a refresh, forced or not, only reads the tasks: the task objects,
    the manager with its persisted snapshot, the sort mode and the trace of
    calls are as before. *)
Theorem refresh_tasks_reads_only force app :
  heap (refresh_tasks force app) = heap app /\
  task_manager (refresh_tasks force app) = task_manager app /\
  sort_mode (refresh_tasks force app) = sort_mode app /\
  trace (refresh_tasks force app) = trace app.
Proof.
  split; [apply refresh_tasks_heap|].
  split; [apply refresh_tasks_task_manager|].
  split; [apply refresh_tasks_sort_mode | apply refresh_tasks_trace].
Qed.

(** X2: while one of the three column attributes is missing, a refresh
    leaves the columns alone; a forced one still records the task count. *)
Theorem refresh_tasks_unmounted force app :
  ~ mounted app ->
  todo_column (refresh_tasks force app) = todo_column app /\
  doing_column (refresh_tasks force app) = doing_column app /\
  done_column (refresh_tasks force app) = done_column app /\
  (force = true ->
   _last_task_count (refresh_tasks force app) = length (tasks (task_manager app))).
Proof.
  intros Hun. unfold refresh_tasks.
  destruct (negb force && _) eqn:E.
  - repeat split; try reflexivity. intros ->. discriminate E.
  - cbn [todo_column doing_column done_column].
    destruct (todo_column app) eqn:E1, (doing_column app) eqn:E2,
      (done_column app) eqn:E3; cbn; auto.
    exfalso. apply Hun. unfold mounted. rewrite E1, E2, E3. eauto.
Qed.

Lemma refresh_tasks_unmounted_witness :
  let app := TodoApp_init [milk; report] (mk_TaskManager [0; 1]%nat [milk; report]) in
  todo_column (refresh_tasks true app) = None /\
  doing_column (refresh_tasks true app) = None /\
  done_column (refresh_tasks true app) = None /\
  (true = true -> _last_task_count (refresh_tasks true app) = 2%nat).
Proof.
  apply (refresh_tasks_unmounted true
           (TodoApp_init [milk; report] (mk_TaskManager [0; 1]%nat [milk; report]))).
  intros (H & _). destruct H as [c H]. discriminate H.
Defined.

(** X3: a refresh right after a forced refresh, forced or not, changes
    nothing. *)
Theorem refresh_tasks_after_forced force app :
  refresh_tasks force (refresh_tasks true app) = refresh_tasks true app.
Proof.
  unfold refresh_tasks at 2. cbn [negb andb].
  cbn [todo_column doing_column done_column].
  destruct (todo_column app) eqn:E1, (doing_column app) eqn:E2,
    (done_column app) eqn:E3;
    unfold refresh_tasks; cbn; rewrite ?E1, ?E2, ?E3, ?Nat.eqb_refl;
    destruct force; reflexivity.
Qed.

Lemma in_sync_mounted app : in_sync app -> mounted app.
Proof. intros (H1 & H2 & H3 & _). unfold mounted. rewrite H1, H2, H3. eauto. Qed.

Lemma refresh_tasks_in_sync app : mounted app -> in_sync (refresh_tasks true app).
Proof.
  intros ([c1 H1] & [c2 H2] & [c3 H3]).
  unfold refresh_tasks. cbn [negb andb todo_column doing_column done_column].
  rewrite H1, H2, H3. unfold in_sync, column_tasks. cbn. auto.
Qed.

Lemma emit_in_sync e app : in_sync app -> in_sync (emit e app).
Proof. unfold in_sync, column_tasks, emit. cbn. auto. Qed.

Lemma call_update_task_mounted task_id kw app :
  mounted app -> mounted (call_update_task task_id kw app).
Proof.
  unfold mounted.
  destruct (call_update_task_frame task_id kw app) as (_ & _ & -> & -> & ->). auto.
Qed.

(** ** The board after each handler *)

Lemma create_task_in_sync uuid4 now (self : NewTaskScreen.screen) app :
  in_sync app -> in_sync (NewTaskScreen.create_task uuid4 now self app).
Proof.
  intros Hs. unfold NewTaskScreen.create_task.
  destruct (negb _); [exact Hs|].
  apply emit_in_sync, refresh_tasks_in_sync.
  apply in_sync_mounted in Hs. exact Hs.
Qed.

Lemma save_task_in_sync (self : EditTaskScreen.screen) app :
  in_sync app -> in_sync (EditTaskScreen.save_task self app).
Proof.
  intros Hs. unfold EditTaskScreen.save_task.
  destruct (negb _); [exact Hs|].
  destruct (heap app !! _); [|exact Hs].
  apply emit_in_sync, refresh_tasks_in_sync, call_update_task_mounted.
  apply in_sync_mounted, Hs.
Qed.

Lemma action_move_task_left_in_sync focused app :
  in_sync app -> in_sync (action_move_task_left focused app).
Proof.
  intros Hs. unfold action_move_task_left.
  destruct focused as [[task|]|]; try exact Hs.
  destruct (heap app !! task) as [t|]; [|exact Hs].
  destruct (status t); try exact Hs;
    apply emit_in_sync, refresh_tasks_in_sync, call_update_task_mounted,
      in_sync_mounted, Hs.
Qed.

Lemma action_move_task_right_in_sync focused app :
  in_sync app -> in_sync (action_move_task_right focused app).
Proof.
  intros Hs. unfold action_move_task_right.
  destruct focused as [[task|]|]; try exact Hs.
  destruct (heap app !! task) as [t|]; [|exact Hs].
  destruct (status t); try exact Hs;
    apply emit_in_sync, refresh_tasks_in_sync, call_update_task_mounted,
      in_sync_mounted, Hs.
Qed.

Lemma action_toggle_sort_in_sync app :
  mounted app -> in_sync (action_toggle_sort app).
Proof.
  intros Hm. unfold action_toggle_sort, notify.
  apply emit_in_sync, refresh_tasks_in_sync. exact Hm.
Qed.

(** X4: no handler leaves the board stale.  On a board that shows what a
    refresh would show, creating a task, saving an edit, moving a task left
    or right, toggling the sort mode, pressing a button of the new-task
    screen and the unforced refresh of [on_mount] all end on such a board
    again, whatever their inputs. *)
Theorem handlers_keep_board_in_sync app :
  in_sync app ->
  (forall uuid4 now self, in_sync (NewTaskScreen.create_task uuid4 now self app)) /\
  (forall b uuid4 now self,
     in_sync (NewTaskScreen.on_button_pressed b uuid4 now self app)) /\
  (forall self, in_sync (EditTaskScreen.save_task self app)) /\
  (forall focused, in_sync (action_move_task_left focused app)) /\
  (forall focused, in_sync (action_move_task_right focused app)) /\
  in_sync (action_toggle_sort app) /\
  in_sync (on_mount app).
Proof.
  intros Hs.
  refine (conj _ (conj _ (conj _ (conj _ (conj _ (conj _ _)))))).
  - intros. apply create_task_in_sync, Hs.
  - intros b uuid4 now self. unfold NewTaskScreen.on_button_pressed.
    destruct b as [b|]; [|exact Hs].
    destruct (String.eqb b "create-button"); [apply create_task_in_sync, Hs|].
    destruct (String.eqb b "cancel-button"); [apply emit_in_sync, Hs | exact Hs].
  - intros. apply save_task_in_sync, Hs.
  - intros. apply action_move_task_left_in_sync, Hs.
  - intros. apply action_move_task_right_in_sync, Hs.
  - apply action_toggle_sort_in_sync, in_sync_mounted, Hs.
  - unfold on_mount, refresh_tasks. destruct Hs as (? & ? & ? & Hc).
    rewrite Hc, Nat.eqb_refl. cbn. unfold in_sync. auto.
Qed.

Lemma board_in_sync : in_sync board.
Proof. repeat split. Qed.

Lemma handlers_keep_board_in_sync_witness :
  (forall uuid4 now self, in_sync (NewTaskScreen.create_task uuid4 now self board)) /\
  (forall b uuid4 now self,
     in_sync (NewTaskScreen.on_button_pressed b uuid4 now self board)) /\
  (forall self, in_sync (EditTaskScreen.save_task self board)) /\
  (forall focused, in_sync (action_move_task_left focused board)) /\
  (forall focused, in_sync (action_move_task_right focused board)) /\
  in_sync (action_toggle_sort board) /\
  in_sync (on_mount board).
Proof. apply (handlers_keep_board_in_sync board). repeat split. Defined.

(** X5: the first mount.  After [__init__] and [compose], [on_mount] leaves
    a board that shows what a refresh would show, whatever the manager
    loaded: with no task the unforced refresh is skipped and the empty
    columns are right, with at least one task the count differs from the
    initial 0 and the columns are filled. *)
Theorem first_mount_in_sync h m :
  in_sync (on_mount (compose (TodoApp_init h m))).
Proof.
  unfold on_mount, refresh_tasks, compose, TodoApp_init.
  cbn [negb andb task_manager _last_task_count todo_column doing_column done_column].
  destruct (tasks m) as [|r l] eqn:E.
  - cbn. unfold in_sync, column_tasks, get_tasks_by_status. cbn. rewrite E. cbn.
    auto.
  - cbn. unfold in_sync, column_tasks. cbn. rewrite E. auto.
Qed.

(** ** Toggling the sort mode *)

(** X6: the sort modes cycle priority, date, deadline, priority; any other
    mode goes to priority.  So four toggles end in the mode one toggle ends
    in, and from one of the three modes three toggles come back to it. *)
Theorem action_toggle_sort_cycle app :
  let toggled := sort_mode (action_toggle_sort app) in
  (sort_mode app = "priority" -> toggled = "date") /\
  (sort_mode app = "date" -> toggled = "deadline") /\
  (sort_mode app <> "priority" -> sort_mode app <> "date" -> toggled = "priority") /\
  (toggled = "priority" \/ toggled = "date" \/ toggled = "deadline") /\
  sort_mode (action_toggle_sort (action_toggle_sort (action_toggle_sort
    (action_toggle_sort app)))) = toggled.
Proof.
  assert (Hstep : forall a, sort_mode (action_toggle_sort a) =
            if String.eqb (sort_mode a) "priority" then "date"
            else if String.eqb (sort_mode a) "date" then "deadline"
            else "priority").
  { intros a. unfold action_toggle_sort, notify, emit. cbn [sort_mode].
    rewrite refresh_tasks_sort_mode. reflexivity. }
  cbn zeta. rewrite !Hstep.
  destruct (String.eqb (sort_mode app) "priority") eqn:E1.
  { apply String.eqb_eq in E1. cbn. repeat split; auto; congruence. }
  destruct (String.eqb (sort_mode app) "date") eqn:E2.
  { apply String.eqb_eq in E2. cbn. repeat split; auto; congruence. }
  apply String.eqb_neq in E1, E2. cbn. repeat split; auto; congruence.
Qed.

(** X7: toggling the sort mode touches no task and nothing persisted; it
    notifies the new mode, and on a mounted board it refills the columns in
    the new order although the task count is the same. *)
Theorem action_toggle_sort_effect app :
  mounted app ->
  let app' := action_toggle_sort app in
  heap app' = heap app /\
  task_manager app' = task_manager app /\
  trace app' = (trace app ++ [notify_call ("Sorting by " ++ sort_mode app')])%list /\
  in_sync app'.
Proof.
  intros Hm app'. split; [|split; [|split]].
  - unfold app', action_toggle_sort, notify, emit. cbn [heap].
    rewrite refresh_tasks_heap. reflexivity.
  - unfold app', action_toggle_sort, notify, emit. cbn [task_manager].
    rewrite refresh_tasks_task_manager. reflexivity.
  - unfold app', action_toggle_sort, notify, emit. cbn [trace sort_mode].
    rewrite refresh_tasks_trace. reflexivity.
  - apply action_toggle_sort_in_sync, Hm.
Qed.

Lemma action_toggle_sort_effect_witness :
  heap (action_toggle_sort board) = heap board /\
  task_manager (action_toggle_sort board) = task_manager board /\
  trace (action_toggle_sort board)
    = (trace board ++ [notify_call ("Sorting by " ++ sort_mode (action_toggle_sort board))])%list /\
  in_sync (action_toggle_sort board).
Proof.
  apply (action_toggle_sort_effect board).
  repeat split; eexists; reflexivity.
Defined.

(** ** What a column shows *)

Lemma insert_by_perm h le r l : insert_by h le r l ≡ₚ r :: l.
Proof.
  induction l as [|r' l IH]; simpl; [reflexivity|].
  destruct (h !! r); [|reflexivity].
  destruct (h !! r'); [|reflexivity].
  destruct (le _ _); [reflexivity|].
  rewrite IH. apply Permutation_swap.
Qed.

Lemma sort_by_perm h le l : sort_by h le l ≡ₚ l.
Proof.
  unfold sort_by. induction l as [|r l IH]; simpl; [reflexivity|].
  rewrite insert_by_perm, IH. reflexivity.
Qed.

Lemma column_tasks_perm app s :
  column_tasks app s ≡ₚ get_tasks_by_status (heap app) s (task_manager app).
Proof.
  unfold column_tasks, sort_tasks_by_priority, sort_tasks_by_date,
    sort_tasks_by_deadline.
  repeat (destruct (String.eqb _ _); [apply sort_by_perm|]). reflexivity.
Qed.

Lemma Status_eqb_eq a b : Status_eqb a b = true <-> a = b.
Proof. destruct a, b; cbn; split; congruence. Qed.

Lemma column_tasks_In app s r :
  In r (column_tasks app s) <->
  In r (tasks (task_manager app)) /\ status_of (heap app) r = Some s.
Proof.
  rewrite <- !list_elem_of_In, (column_tasks_perm app s), !list_elem_of_In.
  unfold get_tasks_by_status, status_of. rewrite filter_In.
  destruct (heap app !! r) as [t|]; cbn.
  - rewrite Status_eqb_eq. split; intros [? ?]; split; congruence.
  - split; intros [? ?]; discriminate.
Qed.

(** X8: what a forced refresh shows on a mounted board: the column of a
    status holds exactly the tasks of the collection that are in that
    status, each as often as the collection holds it, so no task is shown
    in two columns and none of the collection is missing. *)
Theorem refresh_tasks_columns app s :
  mounted app ->
  exists c,
    column_of (refresh_tasks true app) s = Some c /\
    (forall r, In r c <->
               In r (tasks (task_manager app)) /\ status_of (heap app) r = Some s) /\
    (NoDup (tasks (task_manager app)) -> NoDup c).
Proof.
  intros Hm. destruct (refresh_tasks_in_sync app Hm) as (H1 & H2 & H3 & _).
  exists (column_tasks (refresh_tasks true app) s). split; [|split].
  - destruct s; assumption.
  - intros r. rewrite column_tasks_In.
    rewrite refresh_tasks_heap, refresh_tasks_task_manager. reflexivity.
  - intros Hnd. rewrite column_tasks_perm.
    unfold get_tasks_by_status. rewrite refresh_tasks_task_manager.
    apply NoDup_ListNoDup, List.NoDup_filter, NoDup_ListNoDup, Hnd.
Qed.

Lemma refresh_tasks_columns_witness :
  exists c,
    column_of (refresh_tasks true board) DONE = Some c /\
    (forall r, In r c <->
               In r (tasks (task_manager board)) /\
               status_of (heap board) r = Some DONE) /\
    (NoDup (tasks (task_manager board)) -> NoDup c).
Proof.
  apply (refresh_tasks_columns board DONE). repeat split; eexists; reflexivity.
Defined.

(** ** The parsed deadline *)

Lemma isdigit_digit c : isdigit c = true -> (0 <= digit c <= 9)%Z.
Proof.
  unfold isdigit, digit. intros H.
  apply andb_true_iff in H. destruct H as [H1 H2].
  apply Nat.leb_le in H1, H2. lia.
Qed.

Lemma one_digit_month_spec (l : list ascii) m rest' :
  match l with
  | m1 :: "-"%char :: rest =>
      if isdigit m1 && negb (digit m1 =? 0)%Z then Some (digit m1, rest) else None
  | _ => None
  end = Some (m, rest') ->
  (1 <= m <= 12)%Z.
Proof.
  destruct l as [|m1 [|c rest]]; try discriminate.
  destruct c as [[] [] [] [] [] [] [] []]; try discriminate.
  destruct (isdigit m1) eqn:Hd; [|discriminate].
  destruct (digit m1 =? 0)%Z eqn:Hz; [discriminate|].
  cbn. intros [= <- _]. apply isdigit_digit in Hd. apply Z.eqb_neq in Hz. lia.
Qed.

Lemma parse_month_spec l m rest' :
  parse_month l = Some (m, rest') -> (1 <= m <= 12)%Z.
Proof.
  unfold parse_month. intros H.
  destruct l as [|m1 [|m2 [|c rest]]];
    [discriminate H | discriminate H
    | exact (one_digit_month_spec [m1; m2] _ _ H) |].
  destruct c as [[] [] [] [] [] [] [] []];
    try exact (one_digit_month_spec (m1 :: m2 :: _ :: rest) _ _ H).
  destruct (isdigit m1 && isdigit m2);
    [|exact (one_digit_month_spec (m1 :: m2 :: "-"%char :: rest) _ _ H)].
  cbv zeta in H.
  destruct ((1 <=? 10 * digit m1 + digit m2)%Z && (10 * digit m1 + digit m2 <=? 12)%Z)
    eqn:Hr; [|exact (one_digit_month_spec (m1 :: m2 :: "-"%char :: rest) _ _ H)].
  injection H as <- _. apply andb_true_iff in Hr. destruct Hr as [H1 H2].
  apply Z.leb_le in H1, H2. lia.
Qed.

Lemma parse_day_spec l d : parse_day l = Some d -> (1 <= d)%Z.
Proof.
  unfold parse_day. destruct l as [|d1 [|d2 [|? ?]]]; try discriminate.
  - destruct (isdigit d1) eqn:Hd; [|discriminate].
    destruct (digit d1 =? 0)%Z eqn:Hz; [discriminate|].
    cbn. intros [= <-]. apply isdigit_digit in Hd. apply Z.eqb_neq in Hz. lia.
  - destruct (isdigit d1 && isdigit d2).
    + cbv zeta.
      destruct ((1 <=? 10 * digit d1 + digit d2)%Z && _) eqn:Hr; [|discriminate].
      intros [= <-]. apply andb_true_iff in Hr. destruct Hr as [H1 _].
      apply Z.leb_le in H1. exact H1.
    + destruct (Ascii.eqb d1 " "); [|discriminate].
      destruct (isdigit d2) eqn:Hd; [|discriminate].
      destruct (digit d2 =? 0)%Z eqn:Hz; [discriminate|].
      cbn. intros [= <-]. apply isdigit_digit in Hd. apply Z.eqb_neq in Hz. lia.
Qed.

Lemma strptime_is_date s d : strptime s = inr d -> is_date d.
Proof.
  unfold strptime.
  destruct (list_ascii_of_string s) as [|y1 [|y2 [|y3 [|y4 [|c rest]]]]];
    try discriminate.
  destruct c as [[] [] [] [] [] [] [] []]; try discriminate.
  destruct (isdigit y1) eqn:H1; [|discriminate].
  destruct (isdigit y2) eqn:H2; [|discriminate].
  destruct (isdigit y3) eqn:H3; [|discriminate].
  destruct (isdigit y4) eqn:H4; [|discriminate].
  cbn [andb]. cbv zeta.
  destruct (parse_month rest) as [[m rest']|] eqn:Hm; [|discriminate].
  destruct (parse_day rest') as [dd|] eqn:Hd; [|discriminate].
  destruct ((1 <=? _)%Z && _) eqn:Hr; [|discriminate].
  intros [= <-]. apply andb_true_iff in Hr. destruct Hr as [Hy Hdd].
  apply Z.leb_le in Hy, Hdd.
  apply isdigit_digit in H1, H2, H3, H4.
  apply parse_month_spec in Hm. apply parse_day_spec in Hd.
  unfold is_date. cbn. repeat split; try lia.
Qed.

Lemma digit_char_ok k :
  (0 <= k <= 9)%Z -> isdigit (digit_char k) = true /\ digit (digit_char k) = k.
Proof.
  intros Hk.
  assert (k = 0 \/ k = 1 \/ k = 2 \/ k = 3 \/ k = 4 \/ k = 5 \/ k = 6 \/ k = 7
          \/ k = 8 \/ k = 9)%Z as Hc by lia.
  repeat (destruct Hc as [-> | Hc]; [split; reflexivity|]).
  subst k. split; reflexivity.
Qed.

Lemma parse_month_two_digits m rest :
  (1 <= m <= 12)%Z ->
  parse_month (digit_char (m / 10) :: digit_char (m mod 10) :: "-"%char :: rest)
  = Some (m, rest).
Proof.
  intros Hm.
  assert (m = 1 \/ m = 2 \/ m = 3 \/ m = 4 \/ m = 5 \/ m = 6 \/ m = 7 \/ m = 8
          \/ m = 9 \/ m = 10 \/ m = 11 \/ m = 12)%Z as Hc by lia.
  repeat (destruct Hc as [-> | Hc]; [reflexivity|]).
  subst m. reflexivity.
Qed.

Lemma parse_day_two_digits d :
  (1 <= d <= 31)%Z ->
  parse_day [digit_char (d / 10); digit_char (d mod 10)] = Some d.
Proof.
  intros Hd.
  assert (exists n, d = Z.of_nat n /\ (1 <= n <= 31)%nat) as (n & -> & Hn).
  { exists (Z.to_nat d). lia. }
  do 32 (destruct n as [|n]; [first [lia | reflexivity]|]). lia.
Qed.

Lemma strptime_chars c1 c2 c3 c4 rest :
  strptime (String c1 (String c2 (String c3 (String c4 (String "-" rest))))) =
  if isdigit c1 && isdigit c2 && isdigit c3 && isdigit c4 then
    match parse_month (list_ascii_of_string rest) with
    | Some (m, rest') =>
        match parse_day rest' with
        | Some d =>
            if (1 <=? 1000 * digit c1 + 100 * digit c2 + 10 * digit c3 + digit c4)%Z
               && (d <=? days_in_month
                           (1000 * digit c1 + 100 * digit c2 + 10 * digit c3 + digit c4)
                           m)%Z
            then inr (mk_datetime
                        (1000 * digit c1 + 100 * digit c2 + 10 * digit c3 + digit c4)
                        m d 0 0 0 0)
            else inl ValueError
        | None => inl ValueError
        end
    | None => inl ValueError
    end
  else inl ValueError.
Proof. reflexivity. Qed.

Lemma days_in_month_le y m : (days_in_month y m <= 31)%Z.
Proof.
  unfold days_in_month.
  destruct (m =? 2)%Z; [destruct (is_leap y); lia|].
  destruct (_ || _); lia.
Qed.

Lemma year_digits y :
  (0 <= y <= 9999)%Z ->
  (0 <= y / 1000 <= 9 /\ 0 <= y / 100 mod 10 <= 9 /\
   0 <= y mod 100 / 10 <= 9 /\ 0 <= y mod 100 mod 10 <= 9 /\
   1000 * (y / 1000) + 100 * (y / 100 mod 10) + 10 * (y mod 100 / 10)
   + y mod 100 mod 10 = y)%Z.
Proof. intros Hy. Z.to_euclidean_division_equations. lia. Qed.

(** The text [strftime] writes for a date parses back to that date. *)
Lemma strptime_strftime d :
  is_date d -> (1000 <= year d)%Z -> strptime (strftime d) = inr d.
Proof.
  destruct d as [y m dd h mi s us].
  unfold is_date. cbn [year month day hour minute second microsecond].
  intros (Hy & Hm & Hd & -> & -> & -> & ->) Hy'.
  unfold strftime, two_digits.
  cbn [year month day]. cbv [append].
  rewrite strptime_chars.
  destruct (year_digits y) as (H1 & H2 & H3 & H4 & Hsum); [lia|].
  destruct (digit_char_ok _ H1) as [-> ->].
  destruct (digit_char_ok _ H2) as [-> ->].
  destruct (digit_char_ok _ H3) as [-> ->].
  destruct (digit_char_ok _ H4) as [-> ->].
  cbn [andb list_ascii_of_string]. rewrite Hsum.
  rewrite parse_month_two_digits by exact Hm.
  pose proof (days_in_month_le y m).
  rewrite parse_day_two_digits by lia.
  assert ((1 <=? y)%Z = true) as -> by (apply Z.leb_le; lia).
  assert ((dd <=? days_in_month y m)%Z = true) as -> by (apply Z.leb_le; lia).
  reflexivity.
Qed.

Lemma strftime_truthy d : truthy (strftime d) = true.
Proof. reflexivity. Qed.

Lemma strftime_head_ok k : (0 <= k <= 9)%Z -> isspace (digit_char k) = false.
Proof.
  intros Hk.
  assert (k = 0 \/ k = 1 \/ k = 2 \/ k = 3 \/ k = 4 \/ k = 5 \/ k = 6 \/ k = 7
          \/ k = 8 \/ k = 9)%Z as Hc by lia.
  repeat (destruct Hc as [-> | Hc]; [reflexivity|]).
  subst k. reflexivity.
Qed.

Lemma rstrip_no_space s : no_space s -> rstrip s = s.
Proof.
  induction s as [|c s IH]; [reflexivity|]. intros [Hc Hs]. simpl.
  rewrite (IH Hs). destruct s; [rewrite Hc|]; reflexivity.
Qed.

Lemma strip_strftime d :
  is_date d -> strip (strftime d) = strftime d.
Proof.
  destruct d as [y m dd h mi s us].
  unfold is_date. cbn [year month day hour minute second microsecond].
  intros (Hy & Hm & Hd & _).
  pose proof (days_in_month_le y m) as Hle.
  destruct (year_digits y) as (H1 & H2 & H3 & H4 & _); [lia|].
  unfold strip, strftime, two_digits. cbn [year month day]. cbv [append].
  cbn [lstrip]. rewrite (strftime_head_ok _ H1).
  apply rstrip_no_space. cbn [no_space].
  repeat split; try reflexivity; apply strftime_head_ok;
    Z.to_euclidean_division_equations; lia.
Qed.

(** ** More on saving an edited task *)

Lemma save_task_heap (self : EditTaskScreen.screen) app t :
  truthy (strip (EditTaskScreen.title_input self)) = true ->
  find_task (heap app) (id t) (tasks (task_manager app))
    = Some (EditTaskScreen._task_obj self, t) ->
  heap (EditTaskScreen.save_task self app)
    = <[EditTaskScreen._task_obj self := apply_fields (save_fields self t) t]> (heap app) /\
  tasks (task_manager (EditTaskScreen.save_task self app)) = tasks (task_manager app).
Proof.
  intros Htitle Hfind.
  destruct (find_task_lookup _ _ _ _ _ Hfind) as (Hlook & _ & _).
  unfold EditTaskScreen.save_task. rewrite Htitle, Hlook. cbn [negb].
  fold (save_fields self t).
  unfold dismiss, emit. cbn [heap task_manager].
  rewrite refresh_tasks_heap, refresh_tasks_task_manager.
  destruct (call_update_task_found (id t) (save_fields self t) app _ _ Hfind)
    as (Hh & _ & Hm).
  auto.
Qed.

(** X9: what a save stores.  For a title that is not blank and a task of
    the collection, the task ends with the trimmed title and description
    and the selected priority and status; its id and creation time are as
    before, no other task object changes, and the collection holds the same
    tasks in the same order. *)
Theorem save_task_stores (self : EditTaskScreen.screen) app t :
  truthy (strip (EditTaskScreen.title_input self)) = true ->
  find_task (heap app) (id t) (tasks (task_manager app))
    = Some (EditTaskScreen._task_obj self, t) ->
  let app' := EditTaskScreen.save_task self app in
  (exists t',
     heap app' !! EditTaskScreen._task_obj self = Some t' /\
     title t' = strip (EditTaskScreen.title_input self) /\
     description t' = strip (EditTaskScreen.description_input self) /\
     priority t' = EditTaskScreen.priority_select self /\
     status t' = EditTaskScreen.status_select self /\
     id t' = id t /\ created_at t' = created_at t) /\
  (forall r, r <> EditTaskScreen._task_obj self -> heap app' !! r = heap app !! r) /\
  length (heap app') = length (heap app) /\
  tasks (task_manager app') = tasks (task_manager app).
Proof.
  intros Htitle Hfind app'.
  destruct (save_task_heap self app t Htitle Hfind) as (Hh & Hm).
  destruct (find_task_lookup _ _ _ _ _ Hfind) as (Hlook & _ & _).
  fold app' in Hh, Hm. rewrite Hh. split; [|split; [|split]].
  - eexists. split.
    + apply list_lookup_insert_eq. eapply lookup_lt_Some; eauto.
    + cbn. rewrite strip_idem, Htitle. repeat split; reflexivity.
  - intros r Hr. apply list_lookup_insert_ne. congruence.
  - apply length_insert.
  - exact Hm.
Qed.

Lemma save_task_stores_witness :
  let self :=
    EditTaskScreen.mk_screen 0 " Buy oat milk " " two litres " "" URGENT_IMPORTANT DOING in
  let app' := EditTaskScreen.save_task self board in
  (exists t',
     heap app' !! 0%nat = Some t' /\
     title t' = "Buy oat milk" /\
     description t' = "two litres" /\
     priority t' = URGENT_IMPORTANT /\
     status t' = DOING /\
     id t' = "a1" /\ created_at t' = created_at milk) /\
  (forall r, r <> 0%nat -> heap app' !! r = heap board !! r) /\
  length (heap app') = length (heap board) /\
  tasks (task_manager app') = tasks (task_manager board).
Proof.
  apply (save_task_stores
           (EditTaskScreen.mk_screen 0 " Buy oat milk " " two litres " ""
              URGENT_IMPORTANT DOING) board milk); reflexivity.
Defined.

(** X10: saving a task whose id the manager does not find, for one that is
    no longer in the collection, changes no task object and not the
    manager; [update_task] is still called and the screen is dismissed. *)
Theorem save_task_unknown_id (self : EditTaskScreen.screen) app t :
  truthy (strip (EditTaskScreen.title_input self)) = true ->
  heap app !! EditTaskScreen._task_obj self = Some t ->
  find_task (heap app) (id t) (tasks (task_manager app)) = None ->
  let app' := EditTaskScreen.save_task self app in
  heap app' = heap app /\
  task_manager app' = task_manager app /\
  trace app'
    = (trace app ++ [update_task_call (id t) (save_fields self t); dismiss_call])%list.
Proof.
  intros Htitle Hlook Hfind app'. subst app'.
  unfold EditTaskScreen.save_task. rewrite Htitle, Hlook. cbn [negb].
  fold (save_fields self t).
  unfold dismiss, emit. cbn [heap task_manager trace].
  rewrite refresh_tasks_heap, refresh_tasks_task_manager, refresh_tasks_trace.
  unfold call_update_task, update_task. rewrite Hfind. cbn.
  rewrite <- app_assoc. auto.
Qed.

Lemma save_task_unknown_id_witness :
  let gone :=
    mk_TodoApp [milk; report] (mk_TaskManager [1%nat] [report])
      "priority" 1 (Some []) (Some []) (Some [1%nat]) [] in
  let self := EditTaskScreen.mk_screen 0 "Buy oat milk" "" "" URGENT_IMPORTANT DOING in
  heap (EditTaskScreen.save_task self gone) = heap gone /\
  task_manager (EditTaskScreen.save_task self gone) = task_manager gone /\
  trace (EditTaskScreen.save_task self gone)
    = (trace gone ++ [update_task_call (id milk) (save_fields self milk); dismiss_call])%list.
Proof.
  apply (save_task_unknown_id
           (EditTaskScreen.mk_screen 0 "Buy oat milk" "" "" URGENT_IMPORTANT DOING)
           (mk_TodoApp [milk; report] (mk_TaskManager [1%nat] [report])
              "priority" 1 (Some []) (Some []) (Some [1%nat]) [])
           milk); reflexivity.
Defined.

(** X11: opening the edit screen on a task and saving without touching an
    input changes nothing about the tasks, for a task whose title and
    description carry no whitespace at their ends and whose deadline, if it
    has one, is a date at midnight from the year 1000 on: the text the
    screen shows for the deadline parses back to the same date. *)
Theorem compose_save_task_round_trip app r t :
  find_task (heap app) (id t) (tasks (task_manager app)) = Some (r, t) ->
  trimmed (title t) ->
  strip (description t) = description t ->
  (forall d, deadline t = Some d -> is_date d /\ (1000 <= year d)%Z) ->
  let app' := EditTaskScreen.save_task (EditTaskScreen.compose r t) app in
  heap app' = heap app /\
  tasks (task_manager app') = tasks (task_manager app).
Proof.
  intros Hfind [Hts Htt] Hdesc Hdl app'.
  assert (Htitle : truthy (strip (EditTaskScreen.title_input
                                    (EditTaskScreen.compose r t))) = true).
  { unfold EditTaskScreen.compose. cbn [EditTaskScreen.title_input].
    rewrite Hts. exact Htt. }
  destruct (save_task_heap (EditTaskScreen.compose r t) app t Htitle Hfind)
    as (Hh & Hm).
  fold app' in Hh, Hm. split; [|exact Hm].
  rewrite Hh.
  change (EditTaskScreen._task_obj (EditTaskScreen.compose r t)) with r.
  destruct (find_task_lookup _ _ _ _ _ Hfind) as (Hlook & _ & _).
  apply list_insert_id.
  transitivity (Some t); [exact Hlook|]. f_equal. symmetry.
  unfold apply_fields, save_fields, EditTaskScreen.compose,
    EditTaskScreen.compose_status_select.
  cbn [EditTaskScreen.title_input EditTaskScreen.description_input
       EditTaskScreen.deadline_input EditTaskScreen.priority_select
       EditTaskScreen.status_select kw_title kw_description kw_priority
       kw_status kw_deadline default snd].
  rewrite Hts, Hts, Htt, Hdesc.
  assert (Hd : (if truthy (strip match deadline t with
                                  | Some d => strftime d
                                  | None => ""
                                  end)
                then match strptime (strip match deadline t with
                                           | Some d => strftime d
                                           | None => ""
                                           end) with
                     | inr d => Some d
                     | inl ValueError => deadline t
                     end
                else None) = deadline t).
  { destruct (deadline t) as [d|] eqn:E; [|reflexivity].
    destruct (Hdl d eq_refl) as [Hdate Hy].
    rewrite (strip_strftime d Hdate), strftime_truthy.
    rewrite (strptime_strftime d Hdate Hy). reflexivity. }
  rewrite Hd. destruct t; reflexivity.
Qed.

Lemma compose_save_task_round_trip_witness :
  heap (EditTaskScreen.save_task (EditTaskScreen.compose 0 milk) board) = heap board /\
  tasks (task_manager (EditTaskScreen.save_task (EditTaskScreen.compose 0 milk) board))
    = tasks (task_manager board).
Proof.
  apply (compose_save_task_round_trip board 0%nat milk).
  - reflexivity.
  - split; reflexivity.
  - reflexivity.
  - intros d [= <-]. unfold is_date. cbn. lia.
Defined.

(** ** More on creating a task *)

(** X12: what a create stores.  For a title that is not blank the new task
    object has the trimmed title, which is not empty and has no whitespace
    at its ends, and the trimmed description; every task object that was
    there is untouched, and the collection keeps its tasks in order, with
    the new one last. *)
Theorem create_task_stores uuid4 now (self : NewTaskScreen.screen) app :
  truthy (strip (NewTaskScreen.title_input self)) = true ->
  let app' := NewTaskScreen.create_task uuid4 now self app in
  (exists t,
     heap app' !! length (heap app) = Some t /\
     title t = strip (NewTaskScreen.title_input self) /\
     trimmed (title t) /\
     description t = strip (NewTaskScreen.description_input self) /\
     strip (description t) = description t) /\
  (forall r, (r < length (heap app))%nat -> heap app' !! r = heap app !! r) /\
  tasks (task_manager app')
    = (tasks (task_manager app) ++ [length (heap app)])%list.
Proof.
  intros Htitle app'.
  destruct (create_task_created uuid4 now self app Htitle) as (Hh & _ & Hm).
  fold app' in Hh, Hm. rewrite Hh. split; [|split].
  - eexists. split; [apply list_lookup_middle; reflexivity|].
    cbn. split; [reflexivity|]. split; [apply strip_trimmed, Htitle|].
    split; [reflexivity | apply strip_idem].
  - intros r Hr. apply lookup_app_l. exact Hr.
  - exact Hm.
Qed.

Lemma create_task_stores_witness :
  let self := NewTaskScreen.mk_screen "  Call Ann " " about Friday  " "" URGENT_NOT_IMPORTANT in
  let app' := NewTaskScreen.create_task "uuid-1" noon self board in
  (exists t,
     heap app' !! length (heap board) = Some t /\
     title t = "Call Ann" /\
     trimmed (title t) /\
     description t = "about Friday" /\
     strip (description t) = description t) /\
  (forall r, (r < length (heap board))%nat -> heap app' !! r = heap board !! r) /\
  tasks (task_manager app')
    = (tasks (task_manager board) ++ [length (heap board)])%list.
Proof.
  apply (create_task_stores "uuid-1" noon
           (NewTaskScreen.mk_screen "  Call Ann " " about Friday  " ""
              URGENT_NOT_IMPORTANT) board).
  reflexivity.
Defined.

(** X13: the deadline a create stores.  With a title that is not blank, a
    deadline text that is empty or only whitespace gives a task with no
    deadline, and a text [strptime] accepts gives the parsed date, which is
    a calendar date at midnight. *)
Theorem create_task_deadline uuid4 now (self : NewTaskScreen.screen) app :
  truthy (strip (NewTaskScreen.title_input self)) = true ->
  let app' := NewTaskScreen.create_task uuid4 now self app in
  (strip (NewTaskScreen.deadline_input self) = "" ->
   deadline <$> heap app' !! length (heap app) = Some None) /\
  (forall d, strptime (strip (NewTaskScreen.deadline_input self)) = inr d ->
   deadline <$> heap app' !! length (heap app) = Some (Some d) /\ is_date d).
Proof.
  intros Htitle app'.
  pose proof (create_task_created uuid4 now self app Htitle) as Hc.
  fold app' in Hc. split.
  - intros Hblank. rewrite Hblank in Hc. destruct Hc as (Hh & _).
    rewrite Hh, list_lookup_middle by reflexivity. reflexivity.
  - intros d Hparse. rewrite Hparse in Hc.
    destruct (strip (NewTaskScreen.deadline_input self)) eqn:E;
      [discriminate Hparse|].
    destruct Hc as (Hh & _). split; [|eapply strptime_is_date; eauto].
    rewrite Hh, list_lookup_middle by reflexivity. reflexivity.
Qed.

Lemma create_task_deadline_witness :
  let self := NewTaskScreen.mk_screen "Call Ann" "" " 2024-7-4 " URGENT_NOT_IMPORTANT in
  let app' := NewTaskScreen.create_task "uuid-1" noon self board in
  (strip (NewTaskScreen.deadline_input self) = "" ->
   deadline <$> heap app' !! length (heap board) = Some None) /\
  (forall d, strptime (strip (NewTaskScreen.deadline_input self)) = inr d ->
   deadline <$> heap app' !! length (heap board) = Some (Some d) /\ is_date d).
Proof.
  apply (create_task_deadline "uuid-1" noon
           (NewTaskScreen.mk_screen "Call Ann" "" " 2024-7-4 " URGENT_NOT_IMPORTANT)
           board).
  reflexivity.
Defined.

Lemma create_task_mounted_in_sync uuid4 now (self : NewTaskScreen.screen) app :
  truthy (strip (NewTaskScreen.title_input self)) = true ->
  mounted app -> in_sync (NewTaskScreen.create_task uuid4 now self app).
Proof.
  intros Htitle Hm. unfold NewTaskScreen.create_task. rewrite Htitle. cbn [negb].
  apply emit_in_sync, refresh_tasks_in_sync. exact Hm.
Qed.

(** X14: on a mounted board a created task is on display at once: its
    widget is in the TODO column, and in neither of the other two. *)
Theorem create_task_shown_in_todo uuid4 now (self : NewTaskScreen.screen) app :
  truthy (strip (NewTaskScreen.title_input self)) = true ->
  mounted app ->
  let app' := NewTaskScreen.create_task uuid4 now self app in
  exists c1 c2 c3,
    todo_column app' = Some c1 /\ doing_column app' = Some c2 /\
    done_column app' = Some c3 /\
    In (length (heap app)) c1 /\
    ~ In (length (heap app)) c2 /\ ~ In (length (heap app)) c3.
Proof.
  intros Htitle Hm app'.
  destruct (create_task_mounted_in_sync uuid4 now self app Htitle Hm)
    as (H1 & H2 & H3 & _).
  destruct (create_task_created uuid4 now self app Htitle) as (Hh & _ & Hc).
  fold app' in H1, H2, H3, Hh, Hc.
  assert (Hst : status_of (heap app') (length (heap app)) = Some TODO).
  { unfold status_of. rewrite Hh, list_lookup_middle by reflexivity. reflexivity. }
  do 3 eexists. split; [exact H1|]. split; [exact H2|]. split; [exact H3|].
  rewrite !column_tasks_In, Hst, Hc. split; [|split].
  - split; [|reflexivity]. apply in_or_app. right. left. reflexivity.
  - intros [_ H]. discriminate H.
  - intros [_ H]. discriminate H.
Qed.

Lemma create_task_shown_in_todo_witness :
  let self := NewTaskScreen.mk_screen "Call Ann" "" "" URGENT_NOT_IMPORTANT in
  let app' := NewTaskScreen.create_task "uuid-1" noon self board in
  exists c1 c2 c3,
    todo_column app' = Some c1 /\ doing_column app' = Some c2 /\
    done_column app' = Some c3 /\
    In (length (heap board)) c1 /\
    ~ In (length (heap board)) c2 /\ ~ In (length (heap board)) c3.
Proof.
  apply (create_task_shown_in_todo "uuid-1" noon
           (NewTaskScreen.mk_screen "Call Ann" "" "" URGENT_NOT_IMPORTANT) board).
  - reflexivity.
  - repeat split; eexists; reflexivity.
Defined.

(** X15: the new-task screen changes the tasks only through its Create
    button with a title that is not blank: if a button press changes the
    task objects or the collection, that was the case; and Cancel only
    dismisses the screen. *)
Theorem on_button_pressed_creates_only_on_create b uuid4 now
    (self : NewTaskScreen.screen) app :
  let app' := NewTaskScreen.on_button_pressed b uuid4 now self app in
  (heap app' <> heap app \/ task_manager app' <> task_manager app ->
   b = Some "create-button" /\
   truthy (strip (NewTaskScreen.title_input self)) = true) /\
  (b = Some "cancel-button" -> app' = dismiss app).
Proof.
  cbn zeta. unfold NewTaskScreen.on_button_pressed. split.
  - intros Hch. destruct b as [b|]; [|destruct Hch as [H|H]; contradiction].
    destruct (String.eqb b "create-button") eqn:Eb.
    + apply String.eqb_eq in Eb. subst b. split; [reflexivity|].
      destruct (truthy (strip (NewTaskScreen.title_input self))) eqn:Et;
        [reflexivity|].
      exfalso. unfold NewTaskScreen.create_task in Hch. rewrite Et in Hch.
      cbn in Hch. destruct Hch as [H|H]; contradiction.
    + exfalso. destruct (String.eqb b "cancel-button");
        cbn in Hch; destruct Hch as [H|H]; contradiction.
  - intros ->. reflexivity.
Qed.

(** ** More on moving a task *)

Lemma find_task_insert h task_id l r t t' :
  find_task h task_id l = Some (r, t) ->
  id t' = id t ->
  find_task (<[r := t']> h) task_id l = Some (r, t').
Proof.
  intros Hfind Hid.
  destruct (find_task_lookup _ _ _ _ _ Hfind) as (Hlook & Htid & _).
  pose proof (lookup_lt_Some _ _ _ Hlook) as Hlt.
  revert Hfind. induction l as [|r' l IH]; simpl; [discriminate|].
  destruct (decide (r' = r)) as [->|Hne].
  - intros _. rewrite list_lookup_insert_eq by exact Hlt.
    rewrite Hid, Htid, String.eqb_refl. reflexivity.
  - rewrite list_lookup_insert_ne by congruence.
    unfold loc in *.
    destruct (h !! r') as [t0|]; [|exact IH].
    destruct (String.eqb (id t0) task_id); [congruence | exact IH].
Qed.

Lemma moved (app : TodoApp) task t s :
  find_task (heap app) (id t) (tasks (task_manager app)) = Some (task, t) ->
  let app' :=
    notify ("Moved '" ++ title_of (refresh_tasks true
                           (call_update_task (id t) (status_only s) app)) task
            ++ "' to " ++ upper (value s))
      (refresh_tasks true (call_update_task (id t) (status_only s) app)) in
  heap app' = <[task := apply_fields (status_only s) t]> (heap app) /\
  tasks (task_manager app') = tasks (task_manager app) /\
  trace app' = (trace app ++ [update_task_call (id t) (status_only s);
                              notify_call ("Moved '" ++ title t ++ "' to "
                                           ++ upper (value s))])%list.
Proof.
  intros Hfind app'. subst app'.
  destruct (find_task_lookup _ _ _ _ _ Hfind) as (Hlook & _ & _).
  pose proof (lookup_lt_Some _ _ _ Hlook) as Hlt.
  destruct (call_update_task_found (id t) (status_only s) app _ _ Hfind)
    as (Hh & Ht & Hm).
  unfold notify, emit, title_of. cbn [heap task_manager trace].
  rewrite !refresh_tasks_heap, refresh_tasks_task_manager, refresh_tasks_trace.
  rewrite Hh, Ht, Hm, list_lookup_insert_eq by exact Hlt.
  cbn [apply_fields title status_only kw_title].
  rewrite <- app_assoc. auto.
Qed.

(** X16: what a move does away from the edge.  For a task of the
    collection, moving right from TODO or DOING, and moving left from DONE
    or DOING, sets the status to the neighbouring column and nothing else
    of the task, leaves the other task objects and the collection alone,
    and calls [update_task] once and [notify] once, with the title and the
    upper-cased tag of the new status. *)
Theorem action_move_task_effect app task t :
  find_task (heap app) (id t) (tasks (task_manager app)) = Some (task, t) ->
  let right := action_move_task_right (Some (TaskWidget task)) app in
  let left := action_move_task_left (Some (TaskWidget task)) app in
  let outcome app' s :=
    heap app' = <[task := apply_fields (status_only s) t]> (heap app) /\
    tasks (task_manager app') = tasks (task_manager app) /\
    trace app' = (trace app ++ [update_task_call (id t) (status_only s);
                                notify_call ("Moved '" ++ title t ++ "' to "
                                             ++ upper (value s))])%list in
  (status t = TODO -> outcome right DOING) /\
  (status t = DOING -> outcome right DONE /\ outcome left TODO) /\
  (status t = DONE -> outcome left DOING) /\
  (forall s, apply_fields (status_only s) t
             = mk_Task (id t) (title t) (description t) (priority t) s
                 (deadline t) (created_at t)).
Proof.
  intros Hfind right left outcome.
  destruct (find_task_lookup _ _ _ _ _ Hfind) as (Hlook & _ & _).
  subst right left outcome. cbv beta.
  unfold action_move_task_right, action_move_task_left. rewrite Hlook.
  repeat split; try (intros ->; apply (moved app task t _ Hfind)).
  all: try (rewrite H; apply (moved app task t _ Hfind)).
Qed.

Lemma action_move_task_effect_witness :
  let right := action_move_task_right (Some (TaskWidget 0)) board in
  let left := action_move_task_left (Some (TaskWidget 0)) board in
  let outcome app' s :=
    heap app' = <[0%nat := apply_fields (status_only s) milk]> (heap board) /\
    tasks (task_manager app') = tasks (task_manager board) /\
    trace app' = (trace board ++ [update_task_call (id milk) (status_only s);
                                  notify_call ("Moved '" ++ title milk ++ "' to "
                                               ++ upper (value s))])%list in
  (status milk = TODO -> outcome right DOING) /\
  (status milk = DOING -> outcome right DONE /\ outcome left TODO) /\
  (status milk = DONE -> outcome left DOING) /\
  (forall s, apply_fields (status_only s) milk
             = mk_Task (id milk) (title milk) (description milk) (priority milk) s
                 (deadline milk) (created_at milk)).
Proof. apply (action_move_task_effect board 0%nat milk). reflexivity. Defined.

Lemma move_right_heap app task t :
  find_task (heap app) (id t) (tasks (task_manager app)) = Some (task, t) ->
  status t <> DONE ->
  let app' := action_move_task_right (Some (TaskWidget task)) app in
  heap app' = <[task := apply_fields
                          (status_only match status t with
                                       | TODO => DOING
                                       | _ => DONE
                                       end) t]> (heap app) /\
  tasks (task_manager app') = tasks (task_manager app).
Proof.
  intros Hfind Hne app'. subst app'.
  destruct (find_task_lookup _ _ _ _ _ Hfind) as (Hlook & _ & _).
  unfold action_move_task_right. rewrite Hlook.
  destruct (status t); try contradiction;
    [destruct (moved app task t DOING Hfind) as (Hh & Hm & _)
    |destruct (moved app task t DONE Hfind) as (Hh & Hm & _)];
    split; assumption.
Qed.

Lemma move_left_heap app task t :
  find_task (heap app) (id t) (tasks (task_manager app)) = Some (task, t) ->
  status t <> TODO ->
  let app' := action_move_task_left (Some (TaskWidget task)) app in
  heap app' = <[task := apply_fields
                          (status_only match status t with
                                       | DONE => DOING
                                       | _ => TODO
                                       end) t]> (heap app) /\
  tasks (task_manager app') = tasks (task_manager app).
Proof.
  intros Hfind Hne app'. subst app'.
  destruct (find_task_lookup _ _ _ _ _ Hfind) as (Hlook & _ & _).
  unfold action_move_task_left. rewrite Hlook.
  destruct (status t); try contradiction;
    [destruct (moved app task t TODO Hfind) as (Hh & Hm & _)
    |destruct (moved app task t DOING Hfind) as (Hh & Hm & _)];
    split; assumption.
Qed.

Lemma find_task_moved app app' task t t' :
  find_task (heap app) (id t) (tasks (task_manager app)) = Some (task, t) ->
  heap app' = <[task := t']> (heap app) ->
  tasks (task_manager app') = tasks (task_manager app) ->
  id t' = id t ->
  find_task (heap app') (id t') (tasks (task_manager app')) = Some (task, t').
Proof.
  intros Hfind -> -> Hid. rewrite Hid. eapply find_task_insert; eassumption.
Qed.

(** X17: moving a task right and then left brings the task objects back to
    what they were unless the task was in DONE, and moving it left and then
    right does unless it was in TODO; at those two edges the first move
    does nothing and the pair leaves the task in DOING. *)
Theorem action_move_task_there_and_back app task t :
  find_task (heap app) (id t) (tasks (task_manager app)) = Some (task, t) ->
  let right := action_move_task_right (Some (TaskWidget task)) in
  let left := action_move_task_left (Some (TaskWidget task)) in
  (status t <> DONE -> heap (left (right app)) = heap app) /\
  (status t <> TODO -> heap (right (left app)) = heap app) /\
  (status t = DONE -> status_of (heap (left (right app))) task = Some DOING) /\
  (status t = TODO -> status_of (heap (right (left app))) task = Some DOING).
Proof.
  intros Hfind right left. subst right left. cbv beta.
  destruct (find_task_lookup _ _ _ _ _ Hfind) as (Hlook & _ & _).
  pose proof (lookup_lt_Some _ _ _ Hlook) as Hlt.
  refine (conj _ (conj _ (conj _ _))).
  - intros Hne.
    destruct (move_right_heap app task t Hfind Hne) as (Hh & Hm).
    pose proof (find_task_moved _ _ _ _ _ Hfind Hh Hm eq_refl) as Hfind'.
    destruct (move_left_heap _ task _ Hfind') as (Hh' & _).
    { destruct (status t); cbn; discriminate. }
    rewrite Hh', Hh, list_insert_insert_eq.
    apply list_insert_id. transitivity (Some t); [exact Hlook|].
    f_equal. destruct t as [? ? ? ? [] ? ?]; cbn in *;
      first [reflexivity | exfalso; apply Hne; reflexivity].
  - intros Hne.
    destruct (move_left_heap app task t Hfind Hne) as (Hh & Hm).
    pose proof (find_task_moved _ _ _ _ _ Hfind Hh Hm eq_refl) as Hfind'.
    destruct (move_right_heap _ task _ Hfind') as (Hh' & _).
    { destruct (status t); cbn; discriminate. }
    rewrite Hh', Hh, list_insert_insert_eq.
    apply list_insert_id. transitivity (Some t); [exact Hlook|].
    f_equal. destruct t as [? ? ? ? [] ? ?]; cbn in *;
      first [reflexivity | exfalso; apply Hne; reflexivity].
  - intros Hs.
    assert (action_move_task_right (Some (TaskWidget task)) app = app) as ->.
    { unfold action_move_task_right. rewrite Hlook, Hs. reflexivity. }
    destruct (move_left_heap app task t Hfind) as (Hh & _); [congruence|].
    unfold status_of. rewrite Hh, list_lookup_insert_eq by exact Hlt.
    rewrite Hs. reflexivity.
  - intros Hs.
    assert (action_move_task_left (Some (TaskWidget task)) app = app) as ->.
    { unfold action_move_task_left. rewrite Hlook, Hs. reflexivity. }
    destruct (move_right_heap app task t Hfind) as (Hh & _); [congruence|].
    unfold status_of. rewrite Hh, list_lookup_insert_eq by exact Hlt.
    rewrite Hs. reflexivity.
Qed.

Lemma action_move_task_there_and_back_witness :
  let right := action_move_task_right (Some (TaskWidget 0)) in
  let left := action_move_task_left (Some (TaskWidget 0)) in
  (status milk <> DONE -> heap (left (right board)) = heap board) /\
  (status milk <> TODO -> heap (right (left board)) = heap board) /\
  (status milk = DONE -> status_of (heap (left (right board))) 0%nat = Some DOING) /\
  (status milk = TODO -> status_of (heap (right (left board))) 0%nat = Some DOING).
Proof. apply (action_move_task_there_and_back board 0%nat milk). reflexivity. Defined.

(** ** Titles *)

Lemma call_update_task_titles task_id kw app :
  titles_trimmed app ->
  (forall s, kw_title kw = Some s -> truthy (strip s) = true -> trimmed s) ->
  titles_trimmed (call_update_task task_id kw app).
Proof.
  intros Hall Hkw. unfold titles_trimmed, call_update_task, update_task.
  destruct (find_task _ _ _) as [[r t]|] eqn:Hfind; cbn; [|exact Hall].
  destruct (find_task_lookup _ _ _ _ _ Hfind) as (Hlook & _ & _).
  apply Forall_insert; [exact Hall|].
  pose proof (proj1 (Forall_lookup _ _) Hall _ _ Hlook) as Ht.
  cbn. destruct (kw_title kw) as [s|] eqn:Es; [|exact Ht].
  destruct (truthy (strip s)) eqn:E; [|exact Ht]. apply Hkw; auto.
Qed.

Lemma status_only_titles s0 :
  forall s, kw_title (status_only s0) = Some s -> truthy (strip s) = true -> trimmed s.
Proof. intros s H. discriminate H. Qed.

Lemma emit_refresh_titles e force app :
  titles_trimmed app -> titles_trimmed (emit e (refresh_tasks force app)).
Proof.
  unfold titles_trimmed, emit. cbn [heap]. rewrite refresh_tasks_heap. auto.
Qed.

(** X18: no task is ever left with an empty title or with whitespace at an
    end of its title.  If that holds of every task object, it holds again
    after creating a task, saving an edit and moving a task left or right,
    whatever their inputs. *)
Theorem handlers_keep_titles_trimmed app :
  titles_trimmed app ->
  (forall uuid4 now self, titles_trimmed (NewTaskScreen.create_task uuid4 now self app)) /\
  (forall self, titles_trimmed (EditTaskScreen.save_task self app)) /\
  (forall focused, titles_trimmed (action_move_task_left focused app)) /\
  (forall focused, titles_trimmed (action_move_task_right focused app)).
Proof.
  intros Hall. refine (conj _ (conj _ (conj _ _))).
  - intros uuid4 now self. unfold NewTaskScreen.create_task.
    destruct (truthy (strip (NewTaskScreen.title_input self))) eqn:Htitle;
      cbn [negb]; [|exact Hall].
    unfold dismiss. apply emit_refresh_titles.
    unfold titles_trimmed, call_add_task, emit, with_store. cbn [heap].
    apply Forall_app. split; [exact Hall|].
    apply Forall_cons. split; [|apply Forall_nil_2].
    cbn. apply strip_trimmed, Htitle.
  - intros self. unfold EditTaskScreen.save_task.
    destruct (truthy (strip (EditTaskScreen.title_input self))) eqn:Htitle;
      cbn [negb]; [|exact Hall].
    destruct (heap app !! EditTaskScreen._task_obj self); [|exact Hall].
    unfold dismiss. apply emit_refresh_titles, call_update_task_titles;
      [exact Hall|].
    cbn. intros s [= <-] _. apply strip_trimmed, Htitle.
  - intros focused. unfold action_move_task_left.
    destruct focused as [[task|]|]; try exact Hall.
    destruct (heap app !! task) as [t|]; [|exact Hall].
    destruct (status t); try exact Hall;
      unfold notify;
      apply emit_refresh_titles, call_update_task_titles, status_only_titles;
      exact Hall.
  - intros focused. unfold action_move_task_right.
    destruct focused as [[task|]|]; try exact Hall.
    destruct (heap app !! task) as [t|]; [|exact Hall].
    destruct (status t); try exact Hall;
      unfold notify;
      apply emit_refresh_titles, call_update_task_titles, status_only_titles;
      exact Hall.
Qed.

Lemma handlers_keep_titles_trimmed_witness :
  (forall uuid4 now self, titles_trimmed (NewTaskScreen.create_task uuid4 now self board)) /\
  (forall self, titles_trimmed (EditTaskScreen.save_task self board)) /\
  (forall focused, titles_trimmed (action_move_task_left focused board)) /\
  (forall focused, titles_trimmed (action_move_task_right focused board)).
Proof.
  apply (handlers_keep_titles_trimmed board).
  repeat constructor.
Defined.

(** ** Filling a column *)

Lemma add_tasks_from c l :
  foldl (fun column task => KanbanColumn_add_task task column) c l = (c ++ l)%list.
Proof.
  revert c. induction l as [|r l IH]; intros c; cbn.
  - rewrite app_nil_r. reflexivity.
  - rewrite IH. unfold KanbanColumn_add_task. rewrite <- app_assoc. reflexivity.
Qed.

(** X19: the columns of a forced refresh are those of the loop of
    [refresh_tasks]: each column is cleared and the tasks of its status, in
    the order of the sort mode, are added to it one by one, so it ends with
    exactly those tasks in that order, whatever it held before. *)
Theorem refresh_tasks_fills_columns app s c :
  mounted app ->
  column_of app s = Some c ->
  column_of (refresh_tasks true app) s
  = Some (foldl (fun column task => KanbanColumn_add_task task column)
            (KanbanColumn_clear_tasks c) (column_tasks app s)).
Proof.
  intros Hm _. rewrite add_tasks_from. unfold KanbanColumn_clear_tasks. cbn [List.app].
  destruct (refresh_tasks_in_sync app Hm) as (H1 & H2 & H3 & _).
  assert (Hext : column_tasks (refresh_tasks true app) s = column_tasks app s).
  { unfold column_tasks.
    rewrite refresh_tasks_heap, refresh_tasks_task_manager, refresh_tasks_sort_mode.
    reflexivity. }
  rewrite <- Hext. destruct s; assumption.
Qed.

Lemma refresh_tasks_fills_columns_witness :
  column_of (refresh_tasks true board) DONE
  = Some (foldl (fun column task => KanbanColumn_add_task task column)
            (KanbanColumn_clear_tasks [1%nat]) (column_tasks board DONE)).
Proof.
  apply (refresh_tasks_fills_columns board DONE [1%nat]).
  - repeat split; eexists; reflexivity.
  - reflexivity.
Defined.

(** X20: an unforced refresh does fill a mounted board when the task count
    differs from the one it saw last: the board then shows what a refresh
    shows and the new count is recorded. *)
Theorem refresh_tasks_on_count_change app :
  mounted app ->
  length (tasks (task_manager app)) <> _last_task_count app ->
  in_sync (refresh_tasks false app).
Proof.
  intros ([c1 H1] & [c2 H2] & [c3 H3]) Hne.
  unfold refresh_tasks. apply Nat.eqb_neq in Hne. rewrite Hne.
  cbn [negb andb todo_column doing_column done_column].
  rewrite H1, H2, H3. unfold in_sync, column_tasks. cbn. auto.
Qed.

Lemma refresh_tasks_on_count_change_witness :
  in_sync (refresh_tasks false
             (mk_TodoApp [milk; report] (mk_TaskManager [0; 1]%nat [milk; report])
                "date" 1 (Some [0%nat]) (Some []) (Some []) [])).
Proof.
  apply refresh_tasks_on_count_change.
  - repeat split; eexists; reflexivity.
  - cbn. discriminate.
Defined.
